(** * DataSpy: the change-detection core ([src/core.py])

    A shallow embedding of [DataSpyCore]: the in-memory task registry, the
    SQLite tables, the snapshot directory, and the operations [add_task],
    [load_tasks], [check_task], [run_monitor] and [get_events], followed by
    the properties of the monitoring engine that hold (or fail) on them. *)

From Stdlib Require Import ZArith List String Ascii Bool Lia.
From Stdlib Require Import Sorting.Sorted Sorting.Permutation.
From Stdlib Require Import DecimalString.
Import ListNotations.
Open Scope string_scope.
Open Scope list_scope.
Open Scope Z_scope.

(* ================================================================== *)
(** ** [hashlib.sha256(...).hexdigest()]

    [check_task] fingerprints a page with SHA-256.  The digest is modelled
    as FIPS 180-4 defines it, on 32-bit words held in [Z] with the
    wrap-around written out, so that fingerprints can be evaluated. *)

Module Sha256.

Definition wrap32 (x : Z) : Z := Z.land x (Z.ones 32).

Definition add32 (x y : Z) : Z := wrap32 (x + y).

Definition rotr (n x : Z) : Z :=
  Z.lor (Z.shiftr x n) (wrap32 (Z.shiftl x (32 - n))).

Definition Ch (x y z : Z) : Z :=
  Z.lxor (Z.land x y) (Z.land (Z.lxor x (Z.ones 32)) z).

Definition Maj (x y z : Z) : Z :=
  Z.lxor (Z.lxor (Z.land x y) (Z.land x z)) (Z.land y z).

Definition bsig0 (x : Z) : Z :=
  Z.lxor (Z.lxor (rotr 2 x) (rotr 13 x)) (rotr 22 x).

Definition bsig1 (x : Z) : Z :=
  Z.lxor (Z.lxor (rotr 6 x) (rotr 11 x)) (rotr 25 x).

Definition ssig0 (x : Z) : Z :=
  Z.lxor (Z.lxor (rotr 7 x) (rotr 18 x)) (Z.shiftr x 3).

Definition ssig1 (x : Z) : Z :=
  Z.lxor (Z.lxor (rotr 17 x) (rotr 19 x)) (Z.shiftr x 10).

(** The round constants are the first 32 bits of the fractional parts of
    the cube roots of the first 64 primes; the initial hash value those of
    the square roots of the first 8. *)

Definition is_prime (n : Z) : bool :=
  (1 <? n) &&
  forallb (fun d => negb (n mod (Z.of_nat d) =? 0)) (seq 2 (Z.to_nat n - 2)).

Definition primes64 : list Z :=
  Eval vm_compute in filter is_prime (map Z.of_nat (seq 2 310)).

(** Integer cube root by bits: the largest [r < 2^k] above the running
    value whose cube does not exceed [n]. *)
Fixpoint icbrt_bits (k : nat) (n r : Z) : Z :=
  match k with
  | O => r
  | S k' =>
      let c := r + 2 ^ Z.of_nat k' in
      icbrt_bits k' n (if c * c * c <=? n then c else r)
  end.

Definition round_constant (p : Z) : Z :=
  wrap32 (icbrt_bits 40 (p * 2 ^ 96) 0).

Definition initial_word (p : Z) : Z :=
  wrap32 (Z.sqrt (p * 2 ^ 64)).

Definition K : list Z := Eval vm_compute in map round_constant primes64.

Definition Word8 : Type := (Z * Z * Z * Z * Z * Z * Z * Z)%type.

Definition H0 : Word8 :=
  Eval vm_compute in
    match map initial_word (firstn 8 primes64) with
    | [a; b; c; d; e; f; g; h] => (a, b, c, d, e, f, g, h)
    | _ => (0, 0, 0, 0, 0, 0, 0, 0)
    end.

(** Message bytes, padding and parsing into 512-bit blocks. *)

Definition bytes_of_string (s : string) : list Z :=
  map (fun c => Z.of_N (N_of_ascii c)) (list_ascii_of_string s).

Definition be_bytes (n : nat) (x : Z) : list Z :=
  map (fun i => Z.land (Z.shiftr x (8 * Z.of_nat i)) 255) (rev (seq 0 n)).

Definition pad (msg : list Z) : list Z :=
  let len := Z.of_nat (List.length msg) in
  msg ++ [128] ++ repeat 0 (Z.to_nat ((55 - len) mod 64)) ++ be_bytes 8 (8 * len).

Fixpoint chunks (fuel : nat) (bs : list Z) : list (list Z) :=
  match fuel, bs with
  | O, _ | _, [] => []
  | S fuel', _ => firstn 64 bs :: chunks fuel' (skipn 64 bs)
  end.

Fixpoint words_of_bytes (bs : list Z) : list Z :=
  match bs with
  | b3 :: b2 :: b1 :: b0 :: rest =>
      (Z.shiftl b3 24 + Z.shiftl b2 16 + Z.shiftl b1 8 + b0)
        :: words_of_bytes rest
  | _ => []
  end.

(** The message schedule: sixteen words of the block, then forty-eight
    derived ones. *)
Fixpoint schedule (n : nat) (w : list Z) : list Z :=
  match n with
  | O => w
  | S n' =>
      let t := List.length w in
      let at_ k := nth (t - k) w 0 in
      schedule n'
        (w ++ [add32 (add32 (ssig1 (at_ 2%nat)) (at_ 7%nat))
                     (add32 (ssig0 (at_ 15%nat)) (at_ 16%nat))])
  end.

Definition round (s : Word8) (kw : Z * Z) : Word8 :=
  let '(a, b, c, d, e, f, g, h) := s in
  let '(k, w) := kw in
  let t1 := add32 (add32 (add32 h (bsig1 e)) (add32 (Ch e f g) k)) w in
  let t2 := add32 (bsig0 a) (Maj a b c) in
  (add32 t1 t2, a, b, c, add32 d t1, e, f, g).

Definition compress (s : Word8) (block : list Z) : Word8 :=
  let w := schedule 48 (words_of_bytes block) in
  let '(a, b, c, d, e, f, g, h) := fold_left round (combine K w) s in
  let '(a0, b0, c0, d0, e0, f0, g0, h0) := s in
  (add32 a0 a, add32 b0 b, add32 c0 c, add32 d0 d,
   add32 e0 e, add32 f0 f, add32 g0 g, add32 h0 h).

Definition digest (msg : list Z) : Word8 :=
  let padded := pad msg in
  fold_left compress (chunks (List.length padded) padded) H0.

(** Lower-case hexadecimal rendering, eight digits per word. *)

Definition hex_digit (x : Z) : ascii :=
  let d := Z.land x 15 in
  ascii_of_N (Z.to_N (if d <? 10 then 48 + d else 87 + d)).

Definition hex8 (w : Z) (rest : string) : string :=
  String (hex_digit (Z.shiftr w 28)) (String (hex_digit (Z.shiftr w 24))
 (String (hex_digit (Z.shiftr w 20)) (String (hex_digit (Z.shiftr w 16))
 (String (hex_digit (Z.shiftr w 12)) (String (hex_digit (Z.shiftr w 8))
 (String (hex_digit (Z.shiftr w 4)) (String (hex_digit w) rest))))))).

Definition hex_of_words (s : Word8) : string :=
  let '(a, b, c, d, e, f, g, h) := s in
  hex8 a (hex8 b (hex8 c (hex8 d (hex8 e (hex8 f (hex8 g (hex8 h ""%string))))))).

(** [hashlib.sha256(content.encode()).hexdigest()] *)
Definition hexdigest (s : string) : string :=
  hex_of_words (digest (bytes_of_string s)).

End Sha256.

(* ================================================================== *)
(** ** Python values

    A Python [str] is held as a Rocq [string] carrying its UTF-8 encoding,
    so [content.encode()] is the identity, while [len] and slicing count
    code points: the bytes that are not continuation bytes [10xxxxxx]. *)

Definition is_continuation (c : ascii) : bool :=
  let b := N_of_ascii c in ((128 <=? b) && (b <? 192))%N.

(** [len(s)] *)
Fixpoint py_len (s : string) : nat :=
  match s with
  | EmptyString => O
  | String c rest => if is_continuation c then py_len rest else S (py_len rest)
  end.

(** [s[:n]]: the leading [n] code points. *)
Fixpoint py_prefix (n : nat) (s : string) : string :=
  match s with
  | EmptyString => EmptyString
  | String c rest =>
      if is_continuation c then String c (py_prefix n rest)
      else match n with
           | O => EmptyString
           | S n' => String c (py_prefix n' rest)
           end
  end.

(** [str(n)] for an [int]. *)
Definition str_of_int (n : Z) : string := NilZero.string_of_int (Z.to_int n).

(** Truthiness of an [Optional[str]]: [None] and the empty string are
    false. *)
Definition truthy (o : option string) : bool :=
  match o with
  | Some s => negb (s =? "")%string
  | None => false
  end.

(** A [datetime] is a count of microseconds on the local wall clock, and a
    [timedelta] a difference of two.  [isoformat] text orders as the
    instants do, so the TIMESTAMP columns hold the same number. *)
Definition datetime : Type := Z.

(** [delta.total_seconds() < seconds], with [seconds] an [int].  The
    comparison is taken on the exact values: [total_seconds] is the
    microsecond count divided by 10**6.  The code compares the [float]
    that division rounds to; the two agree for every [delta] when
    [0 <= seconds <= 2**34], and may differ by one microsecond of [delta]
    beyond.  The properties that rest on the exact comparison are stated
    for intervals in that range. *)
Definition total_seconds_lt (delta : Z) (seconds : Z) : bool :=
  delta <? seconds * 1000000.

(** A [dict] keeps insertion order; assigning to a present key keeps its
    place. *)
Section Dict.
Context {V : Type}.

Fixpoint dict_get (k : string) (d : list (string * V)) : option V :=
  match d with
  | [] => None
  | (k', v) :: rest => if (k =? k')%string then Some v else dict_get k rest
  end.

Fixpoint dict_set (k : string) (v : V) (d : list (string * V))
  : list (string * V) :=
  match d with
  | [] => [(k, v)]
  | (k', v') :: rest =>
      if (k =? k')%string then (k, v) :: rest
      else (k', v') :: dict_set k v rest
  end.

Definition dict_keys (d : list (string * V)) : list string := map fst d.
End Dict.

(* ================================================================== *)
(** ** Data model *)

Inductive ChangeType : Type :=
| CONTENT_CHANGED
| PRICE_DROPPED
| PRICE_ROSE
| AVAILABLE
| UNAVAILABLE
| NEW_ELEMENT.

(** [change_type.value] *)
Definition ChangeType_value (c : ChangeType) : string :=
  match c with
  | CONTENT_CHANGED => "content_changed"
  | PRICE_DROPPED => "price_dropped"
  | PRICE_ROSE => "price_rose"
  | AVAILABLE => "available"
  | UNAVAILABLE => "unavailable"
  | NEW_ELEMENT => "new_element"
  end.

(** [ChangeType(text)]: [None] stands for the [ValueError]. *)
Definition ChangeType_of_value (s : string) : option ChangeType :=
  find (fun c => (ChangeType_value c =? s)%string)
       [CONTENT_CHANGED; PRICE_DROPPED; PRICE_ROSE;
        AVAILABLE; UNAVAILABLE; NEW_ELEMENT].

Module MonitorTask.
Record t : Type := mk {
  id : string;
  name : string;
  url : string;
  check_type : string;
  selector : option string;
  json_path : option string;
  check_interval : Z;
  last_check : option datetime;
  last_content_hash : option string;
  last_value : option string;
  enabled : bool;
  created_at : datetime
}.

(** [task.last_check = v] *)
Definition set_last_check (v : option datetime) (x : t) : t :=
  mk (id x) (name x) (url x) (check_type x) (selector x) (json_path x)
     (check_interval x) v (last_content_hash x) (last_value x)
     (enabled x) (created_at x).

(** [task.last_content_hash = v] *)
Definition set_last_content_hash (v : option string) (x : t) : t :=
  mk (id x) (name x) (url x) (check_type x) (selector x) (json_path x)
     (check_interval x) (last_check x) v (last_value x)
     (enabled x) (created_at x).
End MonitorTask.
Abbreviation MonitorTask := MonitorTask.t.

Module ChangeEvent.
Record t : Type := mk {
  id : string;
  task_id : string;
  timestamp : datetime;
  change_type : ChangeType;
  old_value : option string;
  new_value : option string;
  screenshot_path : option string;
  diff_summary : string
}.
End ChangeEvent.
Abbreviation ChangeEvent := ChangeEvent.t.

(* ================================================================== *)
(** ** The SQLite store and the snapshot directory

    Three tables, each with [id] as PRIMARY KEY.  Every statement of the
    program opens its own connection and commits at once, so each write is
    a transaction of its own.  SQLite does not enforce the FOREIGN KEY
    clauses unless asked to, and the program does not ask. *)

Module Db.
Record task_row : Type := mk_task_row {
  t_id : string;
  t_name : string;
  t_url : string;
  t_check_type : string;
  t_selector : option string;
  t_json_path : option string;
  t_check_interval : Z;
  t_last_check : option datetime;
  t_last_content_hash : option string;
  t_last_value : option string;
  t_enabled : Z;
  t_created_at : option datetime
}.

Record event_row : Type := mk_event_row {
  e_id : string;
  e_task_id : string;
  e_timestamp : datetime;
  e_change_type : string;
  e_old_value : option string;
  e_new_value : option string;
  e_diff_summary : string
}.

Record snapshot_row : Type := mk_snapshot_row {
  s_id : string;
  s_task_id : string;
  s_timestamp : datetime;
  s_content_hash : string;
  s_content_path : string
}.

Record t : Type := mk {
  tasks : list task_row;
  events : list event_row;
  snapshots : list snapshot_row
}.
End Db.

(** The exceptions the program meets: no response to a request
    ([requests.RequestException]), a 4xx or 5xx status
    ([requests.HTTPError]), a snapshot file that cannot be written, a
    database statement that fails or hits a taken PRIMARY KEY
    ([sqlite3.OperationalError], [sqlite3.IntegrityError]), a stored
    text that names no [ChangeType] or a negative sleep ([ValueError]),
    an [int] too large to bind or to sleep for ([OverflowError]), and a
    sleep the operating system refuses ([OSError] again). *)
Inductive Exception : Type :=
| RequestException
| HTTPError (status_code : Z)
| OSError
| OperationalError
| IntegrityError
| ValueError
| OverflowError.

(** What the program prints, line by line. *)
Inductive Output : Type :=
| Error_checking_task (task_id : string) (e : Exception)
| Monitor_started (interval : Z)
| Change_detected (name : string)
| Summary_line (diff_summary : string)
| No_change (name : string).

(** The state of a [DataSpyCore] together with the world it acts on: the
    task registry [self.tasks], the database file, the snapshot files, the
    requests sent so far and the lines printed so far. *)
Record DataSpyCore : Type := mkCore {
  tasks : list (string * MonitorTask);
  db : Db.t;
  snapshot_files : list (string * string);
  requests_sent : list string;
  stdout : list Output
}.

Definition with_tasks (v : list (string * MonitorTask)) (s : DataSpyCore) :=
  mkCore v (db s) (snapshot_files s) (requests_sent s) (stdout s).
Definition with_db (v : Db.t) (s : DataSpyCore) :=
  mkCore (tasks s) v (snapshot_files s) (requests_sent s) (stdout s).
Definition with_snapshot_files (v : list (string * string)) (s : DataSpyCore) :=
  mkCore (tasks s) (db s) v (requests_sent s) (stdout s).
Definition with_requests_sent (v : list string) (s : DataSpyCore) :=
  mkCore (tasks s) (db s) (snapshot_files s) v (stdout s).
Definition with_stdout (v : list Output) (s : DataSpyCore) :=
  mkCore (tasks s) (db s) (snapshot_files s) (requests_sent s) v.

(* ================================================================== *)
(** ** Statements that may raise

    A computation takes the state and gives back the state it leaves and
    either a value or the exception raised.  Nothing is rolled back when an
    exception is raised. *)

Inductive Outcome (A : Type) : Type :=
| Ok (a : A)
| Raise (e : Exception).
Arguments Ok {A} a.
Arguments Raise {A} e.

Definition M (A : Type) : Type := DataSpyCore -> Outcome A * DataSpyCore.

Definition ret {A} (a : A) : M A := fun s => (Ok a, s).

Definition raise {A} (e : Exception) : M A := fun s => (Raise e, s).

Definition bind {A B} (m : M A) (k : A -> M B) : M B :=
  fun s =>
    match m s with
    | (Ok a, s') => k a s'
    | (Raise e, s') => (Raise e, s')
    end.

(** [try: body except Exception as e: handler(e)].  Every exception of
    the model is an [Exception]. *)
Definition try_except {A} (body : M A) (handler : Exception -> M A) : M A :=
  fun s =>
    match body s with
    | (Ok a, s') => (Ok a, s')
    | (Raise e, s') => handler e s'
    end.

Definition modify (f : DataSpyCore -> DataSpyCore) : M unit :=
  fun s => (Ok tt, f s).

Definition gets {A} (f : DataSpyCore -> A) : M A := fun s => (Ok (f s), s).

Declare Scope py_scope.
Delimit Scope py_scope with py.
Notation "x <- m ;; k" := (bind m (fun x => k))
  (at level 100, m at next level, right associativity) : py_scope.
Notation "m ;; k" := (bind m (fun _ => k))
  (at level 100, right associativity) : py_scope.
Open Scope py_scope.

(** [print(...)].  Standard output is taken to accept every line: a
    [print] that raises (a closed stream, a line the stream's encoding
    cannot take) is outside the model.  What is said below about a call
    returning rather than raising is said under that assumption. *)
Definition print (line : Output) : M unit :=
  modify (fun s => with_stdout (stdout s ++ [line]) s).

(* ================================================================== *)
(** ** What the world answers during one check

    The outcome of [requests.get], the clock readings in the order the code
    takes them, and whether each write to disk goes through. *)

Inductive HttpResult : Type :=
| NoResponse
| Response (status_code : Z) (text : string).

Record CheckEnv : Type := mkEnv {
  http_get : HttpResult;
  event_time : Z;
  event_now : datetime;
  snapshot_time : Z;
  snapshot_current_timestamp : datetime;
  check_now : datetime;
  write_text_fails : bool;
  insert_snapshot_fails : bool;
  update_task_fails : bool;
  insert_event_fails : bool
}.

(** [Path.home() / ".local" / "share" / "dataspy"] *)
Definition DATA_DIR : string := "~/.local/share/dataspy".

(** Assignment to a field of the task object that [self.tasks] holds under
    [task_id]: the registry sees the new value. *)
Definition assign (task_id : string) (task : MonitorTask) : M unit :=
  modify (fun s => with_tasks (dict_set task_id task (tasks s)) s).

(* ================================================================== *)
(** ** [load_tasks] and [add_task] *)

Definition task_of_row (now : datetime) (row : Db.task_row) : MonitorTask :=
  MonitorTask.mk
    (Db.t_id row) (Db.t_name row) (Db.t_url row) (Db.t_check_type row)
    (Db.t_selector row) (Db.t_json_path row) (Db.t_check_interval row)
    (Db.t_last_check row) (Db.t_last_content_hash row) (Db.t_last_value row)
    (negb (Db.t_enabled row =? 0))
    (match Db.t_created_at row with Some t => t | None => now end).

(** [now] is the reading of [datetime.now()] given to a row whose
    [created_at] is NULL.  The code reads the clock anew for each such
    row; one reading stands for them all, which is exact when at most one
    row has a NULL [created_at]. *)
Definition load_tasks (now : datetime) : M unit :=
  modify (fun s =>
    with_tasks
      (fold_left
         (fun d row =>
            let task := task_of_row now row in
            dict_set (MonitorTask.id task) task d)
         (Db.tasks (db s)) (tasks s))
      s).

(** [INSERT OR REPLACE INTO tasks (id, name, url, check_type, selector,
    json_path, check_interval, enabled, created_at)]: the three [last_*]
    columns are left NULL. *)
Definition insert_or_replace_task (fails : bool) (task : MonitorTask) : M unit :=
  if fails then raise OperationalError
  else
    modify (fun s =>
      let d := db s in
      let row :=
        Db.mk_task_row
          (MonitorTask.id task) (MonitorTask.name task) (MonitorTask.url task)
          (MonitorTask.check_type task) (MonitorTask.selector task)
          (MonitorTask.json_path task) (MonitorTask.check_interval task)
          None None None
          (if MonitorTask.enabled task then 1 else 0)
          (Some (MonitorTask.created_at task)) in
      let kept :=
        filter (fun r => negb (Db.t_id r =? MonitorTask.id task)%string)
               (Db.tasks d) in
      with_db (Db.mk (kept ++ [row]) (Db.events d) (Db.snapshots d)) s).

(** Returns the [task_id] of [{"success": True, "task_id": task.id}]. *)
Definition add_task (fails : bool) (task : MonitorTask) : M string :=
  insert_or_replace_task fails task ;;
  assign (MonitorTask.id task) task ;;
  ret (MonitorTask.id task).

(* ================================================================== *)
(** ** [_save_snapshot], [_save_event], [_update_task_in_db] *)

(** [snapshot_path.write_text(content)] *)
Definition write_text (env : CheckEnv) (path content : string) : M unit :=
  if write_text_fails env then raise OSError
  else
    modify (fun s =>
      with_snapshot_files (dict_set path content (snapshot_files s)) s).

Definition insert_snapshot (env : CheckEnv) (row : Db.snapshot_row) : M unit :=
  fun s =>
    let d := db s in
    if insert_snapshot_fails env then (Raise OperationalError, s)
    else if existsb (fun r => (Db.s_id r =? Db.s_id row)%string) (Db.snapshots d)
    then (Raise IntegrityError, s)
    else (Ok tt,
          with_db (Db.mk (Db.tasks d) (Db.events d) (Db.snapshots d ++ [row])) s).

(** [f"snap_{int(time.time())}_{task_id}"] *)
Definition snapshot_id (env : CheckEnv) (task_id : string) : string :=
  ("snap_" ++ str_of_int (snapshot_time env) ++ "_" ++ task_id)%string.

(** [DATA_DIR / "snapshots" / f"{snapshot_id}.html"] *)
Definition snapshot_path (env : CheckEnv) (task_id : string) : string :=
  (DATA_DIR ++ "/snapshots/" ++ snapshot_id env task_id ++ ".html")%string.

Definition snapshot_row (env : CheckEnv) (task_id content_hash : string)
  : Db.snapshot_row :=
  Db.mk_snapshot_row (snapshot_id env task_id) task_id
    (snapshot_current_timestamp env) content_hash (snapshot_path env task_id).

Definition _save_snapshot (env : CheckEnv)
    (task_id content content_hash : string) : M unit :=
  write_text env (snapshot_path env task_id) content ;;
  insert_snapshot env (snapshot_row env task_id content_hash).

(** The values bound by the INSERT of [_save_event]. *)
Definition row_of_event (event : ChangeEvent) : Db.event_row :=
  Db.mk_event_row
    (ChangeEvent.id event) (ChangeEvent.task_id event)
    (ChangeEvent.timestamp event)
    (ChangeType_value (ChangeEvent.change_type event))
    (ChangeEvent.old_value event) (ChangeEvent.new_value event)
    (ChangeEvent.diff_summary event).

Definition _save_event (env : CheckEnv) (event : ChangeEvent) : M unit :=
  fun s =>
    let d := db s in
    let row := row_of_event event in
    if insert_event_fails env then (Raise OperationalError, s)
    else if existsb (fun r => (Db.e_id r =? Db.e_id row)%string) (Db.events d)
    then (Raise IntegrityError, s)
    else (Ok tt,
          with_db (Db.mk (Db.tasks d) (Db.events d ++ [row]) (Db.snapshots d)) s).

(** [UPDATE tasks SET last_check = ?, last_content_hash = ?, last_value = ?
    WHERE id = ?] *)
Definition update_task_row (task : MonitorTask) (r : Db.task_row) : Db.task_row :=
  if (Db.t_id r =? MonitorTask.id task)%string then
    Db.mk_task_row
      (Db.t_id r) (Db.t_name r) (Db.t_url r) (Db.t_check_type r)
      (Db.t_selector r) (Db.t_json_path r) (Db.t_check_interval r)
      (MonitorTask.last_check task) (MonitorTask.last_content_hash task)
      (MonitorTask.last_value task)
      (Db.t_enabled r) (Db.t_created_at r)
  else r.

Definition _update_task_in_db (env : CheckEnv) (task : MonitorTask) : M unit :=
  if update_task_fails env then raise OperationalError
  else
    modify (fun s =>
      let d := db s in
      with_db (Db.mk (map (update_task_row task) (Db.tasks d))
                     (Db.events d) (Db.snapshots d)) s).

(* ================================================================== *)
(** ** [check_task] *)

(** [requests.get(task.url, timeout=30, headers=...)] *)
Definition requests_get (env : CheckEnv) (url : string) : M (Z * string) :=
  modify (fun s => with_requests_sent (requests_sent s ++ [url]) s) ;;
  match http_get env with
  | NoResponse => raise RequestException
  | Response status_code text => ret (status_code, text)
  end.

(** [response.raise_for_status()] raises on a 4xx or 5xx status. *)
Definition is_http_error (status_code : Z) : bool :=
  (400 <=? status_code) && (status_code <? 600).

Definition raise_for_status (status_code : Z) : M unit :=
  if is_http_error status_code then raise (HTTPError status_code) else ret tt.

(** [task.last_content_hash != content_hash] *)
Definition differs (previous : option string) (content_hash : string) : bool :=
  match previous with
  | Some p => negb (p =? content_hash)%string
  | None => true
  end.

(** [task.last_content_hash and task.last_content_hash != content_hash] *)
Definition content_changed (task : MonitorTask) (content_hash : string) : bool :=
  truthy (MonitorTask.last_content_hash task)
  && differs (MonitorTask.last_content_hash task) content_hash.

(** [h[:16] + "..."] *)
Definition truncated (h : string) : string := (py_prefix 16 h ++ "...")%string.

(** [f"evt_{int(time.time())}_{task_id}"] *)
Definition event_id (env : CheckEnv) (task_id : string) : string :=
  ("evt_" ++ str_of_int (event_time env) ++ "_" ++ task_id)%string.

(** The [ChangeEvent(...)] built when the content changed; the stored
    fingerprint is then a non-empty string, so the slice is defined. *)
Definition content_changed_event (env : CheckEnv) (task_id : string)
    (task : MonitorTask) (content content_hash : string) : ChangeEvent :=
  ChangeEvent.mk
    (event_id env task_id)
    task_id
    (event_now env)
    CONTENT_CHANGED
    (option_map truncated (MonitorTask.last_content_hash task))
    (Some (truncated content_hash))
    None
    ("Content changed (" ++ str_of_int (Z.of_nat (py_len content))
       ++ " bytes)")%string.

(** The body of the [try] statement. *)
Definition check_task_body (env : CheckEnv) (task_id : string)
    (task : MonitorTask) : M (option ChangeEvent) :=
  response <- requests_get env (MonitorTask.url task) ;;
  let '(status_code, content) := response in
  raise_for_status status_code ;;
  let content_hash := Sha256.hexdigest content in
  if content_changed task content_hash then
    let event := content_changed_event env task_id task content content_hash in
    _save_snapshot env task_id content content_hash ;;
    let task := MonitorTask.set_last_content_hash (Some content_hash) task in
    assign task_id task ;;
    let task := MonitorTask.set_last_check (Some (check_now env)) task in
    assign task_id task ;;
    _update_task_in_db env task ;;
    _save_event env event ;;
    ret (Some event)
  else
    let task := MonitorTask.set_last_check (Some (check_now env)) task in
    assign task_id task ;;
    _update_task_in_db env task ;;
    ret None.

Definition check_task (env : CheckEnv) (task_id : string)
  : M (option ChangeEvent) :=
  o <- gets (fun s => dict_get task_id (tasks s)) ;;
  match o with
  | None => ret None
  | Some task =>
      if negb (MonitorTask.enabled task) then ret None
      else
        try_except
          (check_task_body env task_id task)
          (fun e => print (Error_checking_task task_id e) ;; ret None)
  end.

(* ================================================================== *)
(** ** [run_monitor]

    The loop never returns by itself; [run_monitor n] is its first [n]
    rounds, each a pass over the registry followed by
    [time.sleep(interval)].  For each task a round visits, the world
    supplies the reading of [datetime.now()] taken in the loop and the
    answers for the check; for each round it tells whether the operating
    system refuses the sleep. *)

Record Visit : Type := mkVisit {
  loop_now : datetime;
  check_env : CheckEnv
}.

(** The body of the [for] loop, for the item [task_id, task].  [task] is
    the object the registry holds under [task_id]; its [name], printed
    after the check, is the one it had before. *)
Definition monitor_task (v : Visit) (task_id : string) : M unit :=
  o <- gets (fun s => dict_get task_id (tasks s)) ;;
  match o with
  | None => ret tt
  | Some task =>
      if negb (MonitorTask.enabled task) then ret tt
      else if match MonitorTask.last_check task with
              | Some last =>
                  total_seconds_lt (loop_now v - last)
                                   (MonitorTask.check_interval task)
              | None => false
              end
      then ret tt
      else
        event <- check_task (check_env v) task_id ;;
        match event with
        | Some e =>
            print (Change_detected (MonitorTask.name task)) ;;
            print (Summary_line (ChangeEvent.diff_summary e))
        | None => print (No_change (MonitorTask.name task))
        end
  end.

Fixpoint monitor_tasks (visits : nat -> Visit) (i : nat)
    (task_ids : list string) : M unit :=
  match task_ids with
  | [] => ret tt
  | task_id :: rest =>
      monitor_task (visits i) task_id ;;
      monitor_tasks visits (S i) rest
  end.

(** One pass of [for task_id, task in self.tasks.items()]. *)
Definition monitor_round (visits : nat -> Visit) : M unit :=
  task_ids <- gets (fun s => dict_keys (tasks s)) ;;
  monitor_tasks visits 0 task_ids.

(** [time.sleep(seconds)] with [seconds] an [int]: the length is first
    converted to nanoseconds in 64 bits ([OverflowError] when it does not
    fit), a negative length raises [ValueError], and the operating system
    may refuse a length its clock cannot take ([OSError]). *)
Definition fits_nanoseconds (seconds : Z) : bool :=
  (- 2 ^ 63 <=? seconds * 1000000000) && (seconds * 1000000000 <? 2 ^ 63).

Definition time_sleep (refused : bool) (seconds : Z) : M unit :=
  if negb (fits_nanoseconds seconds) then raise OverflowError
  else if seconds <? 0 then raise ValueError
  else if refused then raise OSError
  else ret tt.

Fixpoint monitor_rounds (n : nat) (world : nat -> nat -> Visit)
    (sleep_refused : nat -> bool) (interval : Z) (k : nat) : M unit :=
  match n with
  | O => ret tt
  | S n' =>
      monitor_round (world k) ;;
      time_sleep (sleep_refused k) interval ;;
      monitor_rounds n' world sleep_refused interval (S k)
  end.

Definition run_monitor (n : nat) (world : nat -> nat -> Visit)
    (sleep_refused : nat -> bool) (interval : Z) : M unit :=
  print (Monitor_started interval) ;;
  monitor_rounds n world sleep_refused interval 0.

(* ================================================================== *)
(** ** [get_events]

    Binding [limit] raises [OverflowError] when it is not a signed 64-bit
    integer.  The SELECT is otherwise taken to succeed; what can raise
    then is the reading of a stored row. *)

Definition fits_int64 (n : Z) : bool := (- 2 ^ 63 <=? n) && (n <? 2 ^ 63).

(** [ORDER BY timestamp DESC]; rows of equal timestamp keep table order. *)
Fixpoint insert_desc (r : Db.event_row) (sorted : list Db.event_row)
  : list Db.event_row :=
  match sorted with
  | [] => [r]
  | x :: rest =>
      if Db.e_timestamp r <? Db.e_timestamp x
      then x :: insert_desc r rest
      else r :: x :: rest
  end.

Definition order_by_timestamp_desc (rows : list Db.event_row)
  : list Db.event_row :=
  fold_right insert_desc [] rows.

(** [LIMIT ?]: SQLite reads a negative limit as no limit. *)
Definition sql_limit {A} (limit : Z) (rows : list A) : list A :=
  if limit <? 0 then rows else firstn (Z.to_nat limit) rows.

Definition select_events (task_id : option string) (limit : Z)
    (d : Db.t) : list Db.event_row :=
  match task_id with
  | Some t =>
      if truthy task_id then
        sql_limit limit
          (order_by_timestamp_desc
             (filter (fun r => (Db.e_task_id r =? t)%string) (Db.events d)))
      else sql_limit limit (order_by_timestamp_desc (Db.events d))
  | None => sql_limit limit (order_by_timestamp_desc (Db.events d))
  end.

Definition event_of_row (row : Db.event_row) : M ChangeEvent :=
  match ChangeType_of_value (Db.e_change_type row) with
  | Some c =>
      ret (ChangeEvent.mk (Db.e_id row) (Db.e_task_id row)
             (Db.e_timestamp row) c (Db.e_old_value row) (Db.e_new_value row)
             None (Db.e_diff_summary row))
  | None => raise ValueError
  end.

Fixpoint events_of_rows (rows : list Db.event_row) : M (list ChangeEvent) :=
  match rows with
  | [] => ret []
  | row :: rest =>
      event <- event_of_row row ;;
      rest_events <- events_of_rows rest ;;
      ret (event :: rest_events)
  end.

Definition get_events (task_id : option string) (limit : Z)
  : M (list ChangeEvent) :=
  if negb (fits_int64 limit) then raise OverflowError
  else
    rows <- gets (fun s => select_events task_id limit (db s)) ;;
    events_of_rows rows.

(* ================================================================== *)
(** ** Vocabulary of the properties *)

(** The fields of a task other than [last_check] and [last_content_hash]
    are the same in [t] and [t']. *)
Definition frame_fields (t t' : MonitorTask) : Prop :=
  MonitorTask.id t' = MonitorTask.id t
  /\ MonitorTask.name t' = MonitorTask.name t
  /\ MonitorTask.url t' = MonitorTask.url t
  /\ MonitorTask.check_type t' = MonitorTask.check_type t
  /\ MonitorTask.selector t' = MonitorTask.selector t
  /\ MonitorTask.json_path t' = MonitorTask.json_path t
  /\ MonitorTask.check_interval t' = MonitorTask.check_interval t
  /\ MonitorTask.last_value t' = MonitorTask.last_value t
  /\ MonitorTask.enabled t' = MonitorTask.enabled t
  /\ MonitorTask.created_at t' = MonitorTask.created_at t.

(* ================================================================== *)
(** ** Scenarios *)

Definition example_task : MonitorTask :=
  MonitorTask.mk "test_hn" "Hacker News Top" "https://news.ycombinator.com"
    "full_page" None None 300 None None None true 1000.

Definition empty_core : DataSpyCore := mkCore [] (Db.mk [] [] []) [] [] [].

(** The world of a check at second [t] in which the page reads [page] and
    every write goes through. *)
Definition calm_env (page : HttpResult) (t : Z) : CheckEnv :=
  mkEnv page t (t * 1000000) t (t * 1000000) (t * 1000000)
        false false false false.

(** The state after [spy.add_task(test_task)] on a fresh installation. *)
Definition example_core : DataSpyCore :=
  snd (add_task false example_task empty_core).

(** Whether each write of a check goes through: the disk takes it and, for
    an INSERT, the id is not taken yet. *)
Definition snapshot_goes_through (env : CheckEnv) (task_id : string)
    (s : DataSpyCore) : bool :=
  negb (write_text_fails env)
  && negb (insert_snapshot_fails env)
  && negb (existsb (fun r => (Db.s_id r =? snapshot_id env task_id)%string)
                   (Db.snapshots (db s))).

Definition update_goes_through (env : CheckEnv) : bool :=
  negb (update_task_fails env).

Definition event_goes_through (env : CheckEnv) (task_id : string)
    (s : DataSpyCore) : bool :=
  negb (insert_event_fails env)
  && negb (existsb (fun r => (Db.e_id r =? event_id env task_id)%string)
                   (Db.events (db s))).

(** The field [f] of the task registered under [task_id]. *)
Definition field {A} (f : MonitorTask -> A) (task_id : string)
    (s : DataSpyCore) : option A :=
  option_map f (dict_get task_id (tasks s)).

(** A task whose stored fingerprint is that of a page reading [page]. *)
Definition seen_task (page : string) : MonitorTask :=
  MonitorTask.set_last_content_hash (Some (Sha256.hexdigest page)) example_task.

Definition seen_core (page : string) : DataSpyCore :=
  snd (add_task false (seen_task page) empty_core).

(** A world like [calm_env] in which the INSERT into [events] fails. *)
Definition event_failing_env (page : HttpResult) (t : Z) : CheckEnv :=
  mkEnv page t (t * 1000000) t (t * 1000000) (t * 1000000)
        false false false true.

(** A task whose stored fingerprint is the empty string. *)
Definition blank_core : DataSpyCore :=
  snd (add_task false
         (MonitorTask.set_last_content_hash (Some ""%string) example_task)
         empty_core).

(** A task of check type [price]: the page last read "19.99", and that is
    also the value held in [last_value]. *)
Definition price_task : MonitorTask :=
  MonitorTask.mk "widget" "Widget price" "https://shop.example/widget"
    "price" (Some ".price"%string) None 300 None
    (Some (Sha256.hexdigest "19.99")) (Some "19.99"%string) true 1000.

Definition price_core : DataSpyCore :=
  snd (add_task false price_task empty_core).

(** A world like [calm_env] in which the UPDATE of the task row fails. *)
Definition update_failing_env (page : HttpResult) (t : Z) : CheckEnv :=
  mkEnv page t (t * 1000000) t (t * 1000000) (t * 1000000)
        false false true false.

(** [a] is no later than [b]; an unset [last_check] is before everything. *)
Definition last_check_le (a b : option datetime) : Prop :=
  match a, b with
  | None, _ => True
  | Some x, Some y => x <= y
  | Some _, None => False
  end.

(** Following the spec's words: a task is due at [now] when it is enabled
    and either has never been checked or [now] minus its last check is at
    least its check interval (seconds against microseconds). *)
Definition is_due (now : datetime) (task : MonitorTask) : bool :=
  MonitorTask.enabled task
  && match MonitorTask.last_check task with
     | None => true
     | Some last => MonitorTask.check_interval task * 1000000 <=? now - last
     end.

(** The check intervals for which the loop's comparison of seconds is
    exact: up to 2**34 seconds, some 544 years. *)
Definition interval_in_range (task : MonitorTask) : Prop :=
  0 <= MonitorTask.check_interval task <= 2 ^ 34.

Definition intervals_in_range (s : DataSpyCore) : Prop :=
  forall k t, dict_get k (tasks s) = Some t -> interval_in_range t.

(** [time.sleep(interval)] returns. *)
Definition sleep_goes_through (refused : bool) (interval : Z) : bool :=
  fits_nanoseconds interval && negb (interval <? 0) && negb refused.

(** The urls of the tasks of [items] that are due when the loop reaches
    them, the first of them at visit [i]. *)
Fixpoint due_urls (visits : nat -> Visit) (i : nat)
    (items : list (string * MonitorTask)) : list string :=
  match items with
  | [] => []
  | (_, task) :: rest =>
      (if is_due (loop_now (visits i)) task then [MonitorTask.url task] else [])
        ++ due_urls visits (S i) rest
  end.

(** Two registered tasks, and a round in which the fetch for the first
    gets no response while the second is served. *)
Definition second_task : MonitorTask :=
  MonitorTask.mk "api" "Status API" "https://api.example/status"
    "json_api" None (Some "$.status"%string) 60 None None None true 2000.

Definition two_task_core : DataSpyCore :=
  snd (add_task false second_task example_core).

Definition stormy_round (i : nat) : Visit :=
  match i with
  | O => mkVisit 5000000000 (calm_env NoResponse 5000)
  | S _ => mkVisit 5000000000 (calm_env (Response 200 "ok") 5000)
  end.

(** A stored row whose [change_type] text names a [ChangeType]. *)
Definition valid_event_row (row : Db.event_row) : Prop :=
  ChangeType_of_value (Db.e_change_type row) <> None.

(** The rows a call of [get_events] asks for: those of the task, or all of
    them when no task id (or an empty one) is given. *)
Definition wanted (task_id : option string) (row : Db.event_row) : bool :=
  match task_id with
  | Some t => if truthy task_id then (Db.e_task_id row =? t)%string else true
  | None => true
  end.

(** [a] is listed before [b] only if it is not older. *)
Definition not_older (a b : Db.event_row) : Prop :=
  Db.e_timestamp a >= Db.e_timestamp b.

(** A store holding one event of task "a" and a later one of task "b". *)
Definition two_event_core : DataSpyCore :=
  mkCore [] (Db.mk []
               [Db.mk_event_row "evt_1_a" "a" 1000000 "content_changed"
                  (Some "0000...")%string (Some "1111...")%string
                  "Content changed (5 bytes)";
                Db.mk_event_row "evt_2_b" "b" 2000000 "content_changed"
                  (Some "2222...")%string (Some "3333...")%string
                  "Content changed (7 bytes)"]
               [])
         [] [] [].

(* ================================================================== *)
(** ** Starting again, and vocabulary for the registry and the tables *)

(** [DataSpyCore()] started again on the disk [s] leaves: the directories
    and the tables exist already, so [mkdir(exist_ok=True)] and
    [CREATE TABLE IF NOT EXISTS] change nothing; the registry starts empty
    and [load_tasks] fills it. *)
Definition restart (now : datetime) (s : DataSpyCore) : DataSpyCore :=
  snd (load_tasks now (with_tasks [] s)).

(** What [load_tasks] does with one row. *)
Definition load_step (now : datetime) (d : list (string * MonitorTask))
    (row : Db.task_row) : list (string * MonitorTask) :=
  dict_set (MonitorTask.id (task_of_row now row)) (task_of_row now row) d.

(** The [created_at] of a row is NULL. *)
Definition created_at_is_null (row : Db.task_row) : bool :=
  match Db.t_created_at row with
  | None => true
  | Some _ => false
  end.

(** The row [add_task] writes for [task]. *)
Definition inserted_row (task : MonitorTask) : Db.task_row :=
  Db.mk_task_row
    (MonitorTask.id task) (MonitorTask.name task) (MonitorTask.url task)
    (MonitorTask.check_type task) (MonitorTask.selector task)
    (MonitorTask.json_path task) (MonitorTask.check_interval task)
    None None None
    (if MonitorTask.enabled task then 1 else 0)
    (Some (MonitorTask.created_at task)).

(** [task] with [last_check], [last_content_hash] and [last_value] unset. *)
Definition never_checked (task : MonitorTask) : MonitorTask :=
  MonitorTask.mk
    (MonitorTask.id task) (MonitorTask.name task) (MonitorTask.url task)
    (MonitorTask.check_type task) (MonitorTask.selector task)
    (MonitorTask.json_path task) (MonitorTask.check_interval task)
    None None None
    (MonitorTask.enabled task) (MonitorTask.created_at task).

(** The columns of a task row that no UPDATE of the program sets. *)
Definition static_columns (r : Db.task_row) :=
  (Db.t_id r, Db.t_name r, Db.t_url r, Db.t_check_type r, Db.t_selector r,
   Db.t_json_path r, Db.t_check_interval r, Db.t_enabled r, Db.t_created_at r).

(** The rows of the task table whose id is, or is not, [k]. *)
Definition rows_of (k : string) (rows : list Db.task_row) : list Db.task_row :=
  filter (fun r => (Db.t_id r =? k)%string) rows.

Definition rows_but (k : string) (rows : list Db.task_row) : list Db.task_row :=
  filter (fun r => negb (Db.t_id r =? k)%string) rows.

(** A store holding two task rows, one checked before and disabled. *)
Definition stored_core : DataSpyCore :=
  mkCore []
    (Db.mk
       [Db.mk_task_row "test_hn" "Hacker News Top"
          "https://news.ycombinator.com" "full_page" None None 300
          (Some 5000000000) (Some (Sha256.hexdigest "hello")) None 1
          (Some 1000);
        Db.mk_task_row "api" "Status API" "https://api.example/status"
          "json_api" None (Some "$.status"%string) 60 None None None 0 None]
       [] [])
    [] [] [].

(** A store in which the example task has its row and was seen to read
    "hello", as after a check and a restart. *)
Definition settled_core : DataSpyCore :=
  restart 7000 stored_core.

(** [e] as it is stored: the event table has no column for
    [screenshot_path]. *)
Definition without_screenshot (e : ChangeEvent) : ChangeEvent :=
  ChangeEvent.mk (ChangeEvent.id e) (ChangeEvent.task_id e)
    (ChangeEvent.timestamp e) (ChangeEvent.change_type e)
    (ChangeEvent.old_value e) (ChangeEvent.new_value e) None
    (ChangeEvent.diff_summary e).

(** [limit] does not cut a list of [n] rows. *)
Definition covers (limit : Z) (n : nat) : Prop :=
  limit < 0 \/ Z.of_nat n <= limit.

(** A store whose second event row carries a text that names no change
    type. *)
Definition garbled_core : DataSpyCore :=
  mkCore [] (Db.mk []
               [Db.mk_event_row "evt_1_a" "a" 1000000 "content_changed"
                  (Some "0000...")%string (Some "1111...")%string
                  "Content changed (5 bytes)";
                Db.mk_event_row "evt_2_b" "b" 2000000 "changed"
                  None None ""]
               [])
         [] [] [].

(** No registered task has a fingerprint to compare with. *)
Definition no_baseline (s : DataSpyCore) : Prop :=
  forall k t,
    dict_get k (tasks s) = Some t ->
    truthy (MonitorTask.last_content_hash t) = false.

(** The fetch of a check fails: no response, or a 4xx or 5xx status. *)
Definition fetch_fails (env : CheckEnv) : Prop :=
  http_get env = NoResponse
  \/ exists status content,
       http_get env = Response status content
       /\ is_http_error status = true.

(** A world in which every page is served and every write goes through,
    the loop waking once a minute. *)
Definition calm_world (round i : nat) : Visit :=
  let t := 5000 + 60 * Z.of_nat round in
  mkVisit (t * 1000000) (calm_env (Response 200 "page") t).

(** From [s] to [s'] no event and no snapshot was stored, and no task got
    a baseline. *)
Definition reports_nothing (s s' : DataSpyCore) : Prop :=
  Db.events (db s') = Db.events (db s)
  /\ Db.snapshots (db s') = Db.snapshots (db s)
  /\ snapshot_files s' = snapshot_files s
  /\ no_baseline s'.

(* ================================================================== *)
(** * Properties *)

(** ** Test vectors of the fingerprint *)

Example hexdigest_empty :
  Sha256.hexdigest ""
  = "e3b0c44298fc1c149afbf4c8996fb92427ae41e4649b934ca495991b7852b855"%string.
Proof. vm_compute. reflexivity. Qed.

Example hexdigest_abc :
  Sha256.hexdigest "abc"
  = "ba7816bf8f01cfea414140de5dae2223b00361a396177a9cb410ff61f20015ad"%string.
Proof. vm_compute. reflexivity. Qed.

Example hexdigest_two_blocks :
  Sha256.hexdigest
    "01234567890123456789012345678901234567890123456789012345"
  = "83aa034bda83e458a0dc9cbce0d4e354716aa0ff770ed37ac0ed2b292052e4af"%string.
Proof. vm_compute. reflexivity. Qed.

(** ** The fingerprint is never the empty string *)

Lemma hex8_not_empty (w : Z) (rest : string) :
  Sha256.hex8 w rest <> EmptyString.
Proof. unfold Sha256.hex8. discriminate. Qed.

Lemma hexdigest_not_empty (content : string) :
  Sha256.hexdigest content <> EmptyString.
Proof.
  unfold Sha256.hexdigest, Sha256.hex_of_words.
  destruct (Sha256.digest _) as [[[[[[[a b] c] d] e] f] g] h].
  apply hex8_not_empty.
Qed.

Lemma truthy_hexdigest (content : string) :
  truthy (Some (Sha256.hexdigest content)) = true.
Proof.
  unfold truthy.
  destruct (String.eqb_spec (Sha256.hexdigest content) "") as [E | _];
    [ now apply hexdigest_not_empty in E | reflexivity ].
Qed.

(** ** The registry as a dictionary *)

Section DictFacts.
Context {V : Type}.
Implicit Types (d : list (string * V)) (k : string) (v : V).

Lemma dict_get_set_same d k v : dict_get k (dict_set k v d) = Some v.
Proof.
  induction d as [| [k' v'] d IH]; simpl.
  - now rewrite String.eqb_refl.
  - destruct (String.eqb_spec k k') as [-> | N]; simpl.
    + now rewrite String.eqb_refl.
    + destruct (String.eqb_spec k k'); [contradiction | exact IH].
Qed.

Lemma dict_get_set_other d k k' v :
  k' <> k -> dict_get k' (dict_set k v d) = dict_get k' d.
Proof.
  intros N. induction d as [| [k0 v0] d IH]; simpl.
  - destruct (String.eqb_spec k' k); [contradiction | reflexivity].
  - destruct (String.eqb_spec k k0) as [-> | N0]; simpl.
    + destruct (String.eqb_spec k' k0); [contradiction | reflexivity].
    + destruct (String.eqb_spec k' k0); [reflexivity | exact IH].
Qed.

Lemma dict_keys_set_present d k v v0 :
  dict_get k d = Some v0 -> dict_keys (dict_set k v d) = dict_keys d.
Proof.
  induction d as [| [k' v'] d IH]; simpl; [discriminate |].
  destruct (String.eqb_spec k k') as [-> | N]; simpl.
  - reflexivity.
  - intros H. unfold dict_keys in *. simpl. f_equal. auto.
Qed.

Lemma dict_get_in_keys d k v : dict_get k d = Some v -> In k (dict_keys d).
Proof.
  induction d as [| [k' v'] d IH]; simpl; [discriminate |].
  destruct (String.eqb_spec k k') as [-> | N]; [now left | right; auto].
Qed.

Lemma dict_get_not_in_keys d k : ~ In k (dict_keys d) -> dict_get k d = None.
Proof.
  induction d as [| [k' v'] d IH]; simpl; [reflexivity |].
  intros H. destruct (String.eqb_spec k k') as [-> | N].
  - exfalso. apply H. now left.
  - apply IH. intros I. apply H. now right.
Qed.
End DictFacts.

(** ** Running a check symbolically *)

Ltac unfold_check :=
  unfold check_task, check_task_body, try_except, _save_snapshot, write_text,
    insert_snapshot, _update_task_in_db, _save_event, requests_get,
    raise_for_status, assign, print, bind, gets, modify, ret, raise in *.

Ltac reduce_state :=
  cbn [fst snd tasks db snapshot_files requests_sent stdout
       with_tasks with_db with_snapshot_files with_requests_sent with_stdout
       Db.tasks Db.events Db.snapshots negb] in *.

Ltac split_check :=
  repeat (reduce_state;
          match goal with
          | |- context [match dict_get ?k ?d with _ => _ end] =>
              destruct (dict_get k d) eqn:?
          | |- context [match http_get ?e with _ => _ end] =>
              destruct (http_get e) eqn:?
          | |- context [if ?b then _ else _] => destruct b eqn:?
          end);
  reduce_state.


(** What a check may do to the registry: nothing, or replace the checked
    task by one that differs in [last_check] and [last_content_hash] at
    most. *)

Lemma frame_fields_refl t : frame_fields t t.
Proof. repeat split. Qed.

Lemma dict_set_set {V} (d : list (string * V)) k v1 v2 :
  dict_set k v2 (dict_set k v1 d) = dict_set k v2 d.
Proof.
  induction d as [| [k' v'] d IH]; simpl.
  - now rewrite String.eqb_refl.
  - destruct (String.eqb_spec k k') as [-> | N]; simpl.
    + now rewrite String.eqb_refl.
    + destruct (String.eqb_spec k k'); [contradiction | now rewrite IH].
Qed.

Lemma check_task_registry env task_id s :
  let s' := snd (check_task env task_id s) in
  tasks s' = tasks s
  \/ exists t t',
       dict_get task_id (tasks s) = Some t
       /\ MonitorTask.enabled t = true
       /\ tasks s' = dict_set task_id t' (tasks s)
       /\ frame_fields t t'.
Proof.
  unfold_check. split_check; rewrite ?dict_set_set; auto;
    right; eexists; eexists;
    (split; [reflexivity |]);
    (split; [now destruct (MonitorTask.enabled _) |]);
    (split; [reflexivity | repeat split]).
Qed.

Lemma check_task_keys env task_id s :
  dict_keys (tasks (snd (check_task env task_id s))) = dict_keys (tasks s).
Proof.
  destruct (check_task_registry env task_id s) as [E | (t & t' & G & _ & E & _)];
    rewrite E; [reflexivity | now apply dict_keys_set_present with (v0 := t)].
Qed.

Lemma check_task_other_tasks env task_id s k :
  k <> task_id ->
  dict_get k (tasks (snd (check_task env task_id s))) = dict_get k (tasks s).
Proof.
  intros N.
  destruct (check_task_registry env task_id s) as [E | (t & t' & _ & _ & E & _)];
    rewrite E; [reflexivity | now apply dict_get_set_other].
Qed.

(* ================================================================== *)
(** ** What a check leaves alone (C10) *)

(** C10. A check changes at most [last_check] and [last_content_hash] of
    the task it checks: every other field of that task, every other task
    and the set of registered ids stay as they were.  Called with an id
    that is not registered, or with a disabled task, it returns [None] and
    leaves the whole state as it was: no request is sent, nothing is
    written, nothing is printed. *)
Theorem check_task_frame (env : CheckEnv) (task_id : string) (s : DataSpyCore) :
  let r := check_task env task_id s in
  (forall k t,
      dict_get k (tasks s) = Some t ->
      exists t',
        dict_get k (tasks (snd r)) = Some t'
        /\ frame_fields t t'
        /\ (k <> task_id -> t' = t))
  /\ (forall k,
        dict_get k (tasks s) = None -> dict_get k (tasks (snd r)) = None)
  /\ (dict_get task_id (tasks s) = None -> r = (Ok None, s))
  /\ (forall t,
        dict_get task_id (tasks s) = Some t ->
        MonitorTask.enabled t = false ->
        r = (Ok None, s)).
Proof.
  cbv zeta. repeat split.
  - intros k t G.
    destruct (String.eqb_spec k task_id) as [-> | N].
    + destruct (check_task_registry env task_id s)
        as [E | (t0 & t' & G0 & _ & E & F)]; rewrite E.
      * exists t. auto using frame_fields_refl.
      * exists t'. rewrite dict_get_set_same.
        assert (t0 = t) by congruence. subst t0.
        split; [reflexivity | split; [exact F | congruence]].
    + exists t. rewrite check_task_other_tasks by exact N.
      auto using frame_fields_refl.
  - intros k G.
    destruct (String.eqb_spec k task_id) as [-> | N].
    + destruct (check_task_registry env task_id s)
        as [E | (t0 & t' & G0 & _ & _)]; [now rewrite E | congruence].
    + now rewrite check_task_other_tasks.
  - intros G. unfold check_task, bind, gets, ret. now rewrite G.
  - intros t G D. unfold check_task, bind, gets, ret. now rewrite G, D.
Qed.


Lemma check_task_frame_witness :
  check_task (calm_env (Response 200 "hello") 5000) "nobody" example_core
  = (Ok None, example_core).
Proof.
  apply (check_task_frame (calm_env (Response 200 "hello") 5000) "nobody"
           example_core).
  reflexivity.
Defined.

Ltac reduce_rows :=
  cbn [Db.s_id snapshot_row Db.e_id row_of_event ChangeEvent.id
       ChangeEvent.change_type content_changed_event] in *.

Ltac settle :=
  reduce_rows;
  unfold snapshot_goes_through, update_goes_through, event_goes_through,
    field in *;
  reduce_state;
  repeat match goal with
         | H : ?b = true |- _ => rewrite H in *
         | H : ?b = false |- _ => rewrite H in *
         end;
  cbn [negb andb orb option_map] in *;
  rewrite ?dict_set_set, ?dict_get_set_same in *;
  try match goal with
      | H : dict_get _ _ = _ |- _ => rewrite H
      end;
  cbn [option_map MonitorTask.set_last_check MonitorTask.set_last_content_hash
       MonitorTask.id MonitorTask.name MonitorTask.url MonitorTask.check_type
       MonitorTask.selector MonitorTask.json_path MonitorTask.check_interval
       MonitorTask.last_check MonitorTask.last_content_hash
       MonitorTask.last_value MonitorTask.enabled MonitorTask.created_at] in *;
  repeat split;
  try congruence; try discriminate; auto.

(* ================================================================== *)
(** ** The first check (C1) *)

(** While the stored fingerprint is unset (or empty), a check emits nothing
    and leaves the fingerprint as it is. *)
Lemma unset_fingerprint_stays_unset env task_id s task :
  dict_get task_id (tasks s) = Some task ->
  truthy (MonitorTask.last_content_hash task) = false ->
  let r := check_task env task_id s in
  fst r = Ok None
  /\ field MonitorTask.last_content_hash task_id (snd r)
     = Some (MonitorTask.last_content_hash task)
  /\ Db.events (db (snd r)) = Db.events (db s)
  /\ Db.snapshots (db (snd r)) = Db.snapshots (db s).
Proof.
  intros G T. cbv zeta. unfold_check. rewrite G. unfold content_changed.
  rewrite T. cbn [andb]. split_check; settle.
Qed.

(** C1. On a fresh installation [add_task] registers the example task with
    no fingerprint.  The first check fetches the page reading "hello"
    successfully and emits no event, but the fingerprint is still unset
    afterwards: it has not become the fingerprint of the fetched page.  A
    second check that fetches a different page therefore emits no event
    either. *)
Theorem first_check_records_no_baseline :
  let first :=
    check_task (calm_env (Response 200 "hello") 5000) "test_hn" example_core in
  let second :=
    check_task (calm_env (Response 200 "world") 6000) "test_hn" (snd first) in
  field MonitorTask.last_content_hash "test_hn" example_core = Some None
  /\ fst first = Ok None
  /\ field MonitorTask.last_check "test_hn" (snd first) = Some (Some 5000000000)
  /\ field MonitorTask.last_content_hash "test_hn" (snd first) = Some None
  /\ field MonitorTask.last_content_hash "test_hn" (snd first)
     <> Some (Some (Sha256.hexdigest "hello"))
  /\ fst second = Ok None
  /\ Db.events (db (snd second)) = [].
Proof. vm_compute. repeat split; discriminate. Qed.

(* ================================================================== *)
(** ** Content changes (C3) *)

Lemma content_changed_spec task previous current :
  MonitorTask.last_content_hash task = Some previous ->
  previous <> ""%string ->
  (content_changed task current = true <-> previous <> current).
Proof.
  intros L N. unfold content_changed, truthy, differs. rewrite L.
  destruct (String.eqb_spec previous "") as [E | _]; [contradiction |].
  destruct (String.eqb_spec previous current) as [E | D]; cbn [negb andb].
  - split; [discriminate | contradiction].
  - split; auto.
Qed.

(** C3, as the code has it.  Take a check of an enabled task whose stored
    fingerprint is a non-empty string and whose fetch succeeds.  An event,
    when one is returned, is [content_changed] and the new fingerprint
    differs from the stored one.  When the writes to disk go through, an
    event is returned if and only if the fingerprints differ.  When they are
    equal, no event is returned and the stored fingerprint is unchanged. *)
Theorem content_changed_iff_fingerprint_differs
    (env : CheckEnv) (task_id : string) (s : DataSpyCore)
    (task : MonitorTask) (previous : string) (status : Z) (content : string) :
  dict_get task_id (tasks s) = Some task ->
  MonitorTask.enabled task = true ->
  MonitorTask.last_content_hash task = Some previous ->
  previous <> ""%string ->
  http_get env = Response status content ->
  is_http_error status = false ->
  let r := check_task env task_id s in
  let current := Sha256.hexdigest content in
  (forall e,
      fst r = Ok (Some e) ->
      ChangeEvent.change_type e = CONTENT_CHANGED /\ previous <> current)
  /\ (snapshot_goes_through env task_id s = true ->
      update_goes_through env = true ->
      event_goes_through env task_id s = true ->
      ((exists e,
           fst r = Ok (Some e) /\ ChangeEvent.change_type e = CONTENT_CHANGED)
       <-> previous <> current))
  /\ (previous = current ->
      fst r = Ok None
      /\ field MonitorTask.last_content_hash task_id (snd r)
         = Some (Some previous)).
Proof.
  intros G E L N H S. cbv zeta.
  pose proof (content_changed_spec task previous (Sha256.hexdigest content) L N)
    as C.
  unfold_check. rewrite G, E, H. cbn [negb]. reduce_state. rewrite S.
  destruct (content_changed task (Sha256.hexdigest content)) eqn:CC.
  - assert (D : previous <> Sha256.hexdigest content) by now apply C.
    split; [| split].
    + intros e. split_check; intros X; inversion X; split; [reflexivity | exact D].
    + intros W1 W2 W3. split; [intros _; exact D | intros _].
      split_check; settle; eexists; split; reflexivity.
    + contradiction.
  - assert (D : ~ previous <> Sha256.hexdigest content)
      by (intros X; apply C in X; congruence).
    split; [| split].
    + intros e. split_check; discriminate.
    + intros _ _ _. split; [| contradiction].
      intros [e [X _]]. revert X. split_check; discriminate.
    + intros _. split_check; settle.
Qed.

Lemma content_changed_iff_fingerprint_differs_witness :
  exists e,
    fst (check_task (calm_env (Response 200 "world") 6000) "test_hn"
           (seen_core "hello")) = Ok (Some e)
    /\ ChangeEvent.change_type e = CONTENT_CHANGED.
Proof.
  refine (proj2 (proj1 (proj2 (content_changed_iff_fingerprint_differs
            (calm_env (Response 200 "world") 6000) "test_hn" (seen_core "hello")
            (seen_task "hello") (Sha256.hexdigest "hello") 200 "world"
            _ _ _ _ _ _)) _ _ _) _).
  all: vm_compute; try reflexivity; discriminate.
Defined.

(** C3 as stated fails in two ways.  The stored fingerprint is that of
    "hello", the page now reads "world", and the INSERT of the event fails:
    the fingerprints differ and no event is returned.  And a stored
    fingerprint that is the empty string, which is not [None], differs from
    every fingerprint, yet the check returns no event. *)
Lemma fingerprint_differs_without_event :
  (let s := seen_core "hello" in
   let r := check_task (event_failing_env (Response 200 "world") 6000)
              "test_hn" s in
   field MonitorTask.last_content_hash "test_hn" s
   = Some (Some (Sha256.hexdigest "hello"))
   /\ Sha256.hexdigest "world" <> Sha256.hexdigest "hello"
   /\ fst r = Ok None)
  /\ (let r := check_task (calm_env (Response 200 "world") 6000)
                 "test_hn" blank_core in
      field MonitorTask.last_content_hash "test_hn" blank_core
      = Some (Some ""%string)
      /\ Sha256.hexdigest "world" <> ""%string
      /\ fst r = Ok None).
Proof. vm_compute. repeat split; discriminate. Qed.

(* ================================================================== *)
(** ** Prices (C4) *)

(** C4, as the code has it.  [check_task] never reads [check_type] or
    [last_value]: whatever the task, an event it returns is
    [content_changed], never [price_dropped] or [price_rose], and it is
    returned because the fetch succeeded and the stored fingerprint is
    non-empty and differs from that of the fetched page. *)
Theorem check_task_emits_content_changed_only
    (env : CheckEnv) (task_id : string) (s : DataSpyCore) (e : ChangeEvent) :
  fst (check_task env task_id s) = Ok (Some e) ->
  ChangeEvent.change_type e = CONTENT_CHANGED
  /\ ChangeEvent.change_type e <> PRICE_DROPPED
  /\ ChangeEvent.change_type e <> PRICE_ROSE
  /\ exists task status content,
       dict_get task_id (tasks s) = Some task
       /\ http_get env = Response status content
       /\ is_http_error status = false
       /\ content_changed task (Sha256.hexdigest content) = true
       /\ e = content_changed_event env task_id task content
                (Sha256.hexdigest content).
Proof.
  unfold_check. split_check; intros X; inversion X.
  cbn [ChangeEvent.change_type content_changed_event].
  repeat split; try discriminate.
  do 3 eexists. repeat split; eauto.
Qed.

Lemma check_task_emits_content_changed_only_witness :
  ChangeEvent.change_type
    (content_changed_event (calm_env (Response 200 "17.50") 6000) "widget"
       price_task "17.50" (Sha256.hexdigest "17.50"))
  = CONTENT_CHANGED.
Proof.
  apply (check_task_emits_content_changed_only
           (calm_env (Response 200 "17.50") 6000) "widget" price_core).
  vm_compute. reflexivity.
Defined.

(** C4 as stated fails: for a price task whose previous value is 19.99,
    a page reading 17.50 yields [content_changed], not [price_dropped], and
    a page reading 21.00 yields [content_changed], not [price_rose]. *)
Lemma price_change_is_content_changed :
  MonitorTask.check_type price_task = "price"%string
  /\ MonitorTask.last_value price_task = Some "19.99"%string
  /\ option_map ChangeEvent.change_type
       match fst (check_task (calm_env (Response 200 "17.50") 6000)
                    "widget" price_core) with
       | Ok r => r
       | Raise _ => None
       end
     = Some CONTENT_CHANGED
  /\ option_map ChangeEvent.change_type
       match fst (check_task (calm_env (Response 200 "21.00") 6000)
                    "widget" price_core) with
       | Ok r => r
       | Raise _ => None
       end
     = Some CONTENT_CHANGED
  /\ CONTENT_CHANGED <> PRICE_DROPPED
  /\ CONTENT_CHANGED <> PRICE_ROSE.
Proof. vm_compute. repeat split; discriminate. Qed.

(* ================================================================== *)
(** ** Snapshots (C6) *)




(* ================================================================== *)
(** ** Persisting (C9) *)

(** C9, as the code has it.  Persisting is not one transaction: each write
    commits on its own, in the order snapshot, task object in memory, task
    row, event, and the first write that fails ends the check with [None],
    leaving what was written before in place and what comes after
    unwritten.  When no change is detected the task object is updated, then
    its row.  Only when every write goes through are the task, its row, the
    snapshot and the event all committed. *)
Theorem persisting_commits_write_by_write
    (env : CheckEnv) (task_id : string) (s : DataSpyCore)
    (task : MonitorTask) (status : Z) (content : string) :
  dict_get task_id (tasks s) = Some task ->
  MonitorTask.enabled task = true ->
  http_get env = Response status content ->
  is_http_error status = false ->
  let r := check_task env task_id s in
  let h := Sha256.hexdigest content in
  let checked := MonitorTask.set_last_check (Some (check_now env)) in
  let changed :=
    checked (MonitorTask.set_last_content_hash (Some h) task) in
  let event := content_changed_event env task_id task content h in
  (content_changed task h = false ->
   tasks (snd r) = dict_set task_id (checked task) (tasks s)
   /\ fst r = Ok None
   /\ (update_goes_through env = false -> db (snd r) = db s)
   /\ (update_goes_through env = true ->
       Db.tasks (db (snd r))
       = map (update_task_row (checked task)) (Db.tasks (db s))))
  /\ (content_changed task h = true ->
      (snapshot_goes_through env task_id s = false ->
       fst r = Ok None /\ tasks (snd r) = tasks s /\ db (snd r) = db s)
      /\ (snapshot_goes_through env task_id s = true ->
          tasks (snd r) = dict_set task_id changed (tasks s)
          /\ Db.snapshots (db (snd r))
             = Db.snapshots (db s) ++ [snapshot_row env task_id h])
      /\ (snapshot_goes_through env task_id s = true ->
          update_goes_through env = false ->
          fst r = Ok None
          /\ Db.tasks (db (snd r)) = Db.tasks (db s)
          /\ Db.events (db (snd r)) = Db.events (db s))
      /\ (snapshot_goes_through env task_id s = true ->
          update_goes_through env = true ->
          Db.tasks (db (snd r))
          = map (update_task_row changed) (Db.tasks (db s)))
      /\ (snapshot_goes_through env task_id s = true ->
          update_goes_through env = true ->
          event_goes_through env task_id s = false ->
          fst r = Ok None /\ Db.events (db (snd r)) = Db.events (db s))
      /\ (snapshot_goes_through env task_id s = true ->
          update_goes_through env = true ->
          event_goes_through env task_id s = true ->
          fst r = Ok (Some event)
          /\ Db.events (db (snd r)) = Db.events (db s) ++ [row_of_event event])).
Proof.
  intros G E H S. cbv zeta.
  unfold_check. rewrite G, E, H. cbn [negb]. reduce_state. rewrite S.
  split; intros C; rewrite C.
  - split_check; settle.
  - split_check; settle.
Qed.

Lemma persisting_commits_write_by_write_witness :
  let env := calm_env (Response 200 "world") 6000 in
  fst (check_task env "test_hn" (seen_core "hello"))
  = Ok (Some (content_changed_event env "test_hn" (seen_task "hello") "world"
                (Sha256.hexdigest "world"))).
Proof.
  cbv zeta.
  pose proof (persisting_commits_write_by_write
                (calm_env (Response 200 "world") 6000) "test_hn"
                (seen_core "hello") (seen_task "hello") 200 "world"
                eq_refl eq_refl eq_refl eq_refl) as T.
  cbv zeta in T. destruct T as [_ T].
  destruct T as (_ & _ & _ & _ & _ & T); [vm_compute; reflexivity |].
  apply T; vm_compute; reflexivity.
Defined.

(** C9 as stated fails: when the UPDATE of the task row fails after a
    change was detected, the check returns no event and the row and the
    event table are as before, but the task object in memory already
    carries the new fingerprint and check time, and the snapshot row is
    committed. *)
Lemma failed_update_leaves_partial_state :
  let env := update_failing_env (Response 200 "world") 6000 in
  let s := seen_core "hello" in
  let r := check_task env "test_hn" s in
  fst r = Ok None
  /\ field MonitorTask.last_content_hash "test_hn" s
     = Some (Some (Sha256.hexdigest "hello"))
  /\ field MonitorTask.last_content_hash "test_hn" (snd r)
     = Some (Some (Sha256.hexdigest "world"))
  /\ field MonitorTask.last_check "test_hn" s = Some None
  /\ field MonitorTask.last_check "test_hn" (snd r) = Some (Some 6000000000)
  /\ tasks (snd r) <> tasks s
  /\ Db.tasks (db (snd r)) = Db.tasks (db s)
  /\ Db.events (db (snd r)) = Db.events (db s)
  /\ Db.snapshots (db s) = []
  /\ Db.snapshots (db (snd r))
     = [snapshot_row env "test_hn" (Sha256.hexdigest "world")].
Proof. vm_compute. repeat split; discriminate. Qed.

(* ================================================================== *)
(** ** Check times and fingerprints (C2) *)

Lemma last_check_le_refl (a : option datetime) : last_check_le a a.
Proof. destruct a; simpl; lia. Qed.

(** C2, as the code has it.  A check of an enabled task sets [last_check]
    to the clock reading when the fetch succeeds and, if a change is
    detected, the snapshot is saved; when the fetch fails (no response, or
    a 4xx or 5xx status) the task is left exactly as it was, [last_check]
    included.  [last_check] is thus either unchanged or the new reading,
    and does not decrease as long as the clock does not run behind the
    stored value.  [last_content_hash] changes only after a successful
    fetch, to the fingerprint of the fetched page, and [last_value] never
    changes. *)
Theorem last_check_set_when_fetch_succeeds
    (env : CheckEnv) (task_id : string) (s : DataSpyCore) (task : MonitorTask) :
  dict_get task_id (tasks s) = Some task ->
  MonitorTask.enabled task = true ->
  let r := check_task env task_id s in
  exists task',
    dict_get task_id (tasks (snd r)) = Some task'
    /\ (forall status content,
           http_get env = Response status content ->
           is_http_error status = false ->
           content_changed task (Sha256.hexdigest content) = false
           \/ snapshot_goes_through env task_id s = true ->
           MonitorTask.last_check task' = Some (check_now env))
    /\ (http_get env = NoResponse -> task' = task)
    /\ (forall status content,
           http_get env = Response status content ->
           is_http_error status = true ->
           task' = task)
    /\ (MonitorTask.last_check task' = MonitorTask.last_check task
        \/ MonitorTask.last_check task' = Some (check_now env))
    /\ ((forall t0, MonitorTask.last_check task = Some t0 ->
                    t0 <= check_now env) ->
        last_check_le (MonitorTask.last_check task)
                      (MonitorTask.last_check task'))
    /\ (MonitorTask.last_content_hash task'
        = MonitorTask.last_content_hash task
        \/ exists status content,
             http_get env = Response status content
             /\ is_http_error status = false
             /\ MonitorTask.last_content_hash task'
                = Some (Sha256.hexdigest content))
    /\ MonitorTask.last_value task' = MonitorTask.last_value task.
Proof.
  intros G E. cbv zeta.
  assert (Mono : forall now,
             (forall t0, MonitorTask.last_check task = Some t0 -> t0 <= now) ->
             last_check_le (MonitorTask.last_check task) (Some now)).
  { intros now C. destruct (MonitorTask.last_check task) as [t0 |] eqn:L;
      simpl; auto. }
  unfold_check. rewrite G, E. cbn [negb].
  split_check;
    rewrite ?dict_set_set, ?dict_get_set_same;
    eexists; (split; [first [reflexivity | eassumption] |]);
    settle;
    try (intros; congruence);
    try (intros _; apply last_check_le_refl);
    try (intros ? ? X; inversion X; subst; intros ? [Y | Y]; congruence).
  all: try (right; do 2 eexists; repeat split; eauto).
Qed.

Lemma last_check_set_when_fetch_succeeds_witness :
  exists task',
    dict_get "test_hn"
      (tasks (snd (check_task (calm_env (Response 200 "hello") 5000)
                     "test_hn" example_core))) = Some task'
    /\ MonitorTask.last_check task' = Some 5000000000.
Proof.
  destruct (last_check_set_when_fetch_succeeds
              (calm_env (Response 200 "hello") 5000) "test_hn" example_core
              example_task eq_refl eq_refl) as (task' & G & A & _).
  exists task'. split; [exact G |].
  apply (A 200 "hello"%string); [reflexivity | reflexivity | left].
  vm_compute. reflexivity.
Defined.

(** C2 as stated fails: when the fetch gets no response the attempt is made
    (the request is sent) and [last_check] stays unset. *)
Lemma failed_fetch_does_not_set_last_check :
  let r := check_task (calm_env NoResponse 5000) "test_hn" example_core in
  fst r = Ok None
  /\ requests_sent (snd r) = ["https://news.ycombinator.com"%string]
  /\ stdout (snd r) = [Error_checking_task "test_hn" RequestException]
  /\ field MonitorTask.last_check "test_hn" (snd r) = Some None
  /\ field MonitorTask.last_check "test_hn" (snd r)
     <> Some (Some (check_now (calm_env NoResponse 5000))).
Proof. vm_compute. repeat split; discriminate. Qed.

(* ================================================================== *)
(** ** The scheduler loop (C5, C8) *)

Lemma check_task_returns env task_id s :
  exists r, fst (check_task env task_id s) = Ok r.
Proof. unfold_check. split_check; eexists; reflexivity. Qed.

Lemma check_task_catches env task_id s task e s' :
  dict_get task_id (tasks s) = Some task ->
  MonitorTask.enabled task = true ->
  check_task_body env task_id task s = (Raise e, s') ->
  check_task env task_id s
  = (Ok None, with_stdout (stdout s' ++ [Error_checking_task task_id e]) s').
Proof.
  intros G E B. unfold check_task, try_except, bind, gets, print, modify, ret.
  rewrite G, E. cbn [negb]. now rewrite B.
Qed.

Lemma check_task_sends_one_request env task_id s task :
  dict_get task_id (tasks s) = Some task ->
  MonitorTask.enabled task = true ->
  requests_sent (snd (check_task env task_id s))
  = requests_sent s ++ [MonitorTask.url task].
Proof.
  intros G E. unfold_check. rewrite G, E. cbn [negb].
  split_check; reflexivity.
Qed.

Lemma is_due_guard now task :
  is_due now task
  = negb (negb (MonitorTask.enabled task))
    && negb match MonitorTask.last_check task with
            | Some last =>
                total_seconds_lt (now - last) (MonitorTask.check_interval task)
            | None => false
            end.
Proof.
  unfold is_due, total_seconds_lt.
  destruct (MonitorTask.enabled task); cbn [negb andb]; [| reflexivity].
  destruct (MonitorTask.last_check task) as [last |]; [| reflexivity].
  destruct (Z.ltb_spec (now - last) (MonitorTask.check_interval task * 1000000));
    destruct (Z.leb_spec (MonitorTask.check_interval task * 1000000) (now - last));
    cbn [negb]; auto; lia.
Qed.


Lemma example_interval_in_range :
  interval_in_range (MonitorTask.set_last_check (Some 5000000000) example_task)
  /\ interval_in_range example_task.
Proof. unfold interval_in_range. cbn. lia. Qed.


(** ** One round and many rounds *)

Lemma monitor_task_effect v task_id s task :
  dict_get task_id (tasks s) = Some task ->
  let r := monitor_task v task_id s in
  fst r = Ok tt
  /\ requests_sent (snd r)
     = requests_sent s
         ++ (if is_due (loop_now v) task then [MonitorTask.url task] else [])
  /\ (forall k, k <> task_id ->
                dict_get k (tasks (snd r)) = dict_get k (tasks s))
  /\ dict_keys (tasks (snd r)) = dict_keys (tasks s).
Proof.
  intros G. cbv zeta. rewrite is_due_guard.
  unfold monitor_task, bind, gets, ret, print, modify. cbv beta. rewrite G.
  destruct (negb (MonitorTask.enabled task)) eqn:E; cbn [negb andb fst snd].
  { rewrite app_nil_r. auto. }
  destruct (match MonitorTask.last_check task with
            | Some last => _
            | None => false
            end) eqn:L; cbn [negb fst snd].
  { rewrite app_nil_r. auto. }
  assert (E' : MonitorTask.enabled task = true)
    by now destruct (MonitorTask.enabled task).
  pose proof (check_task_sends_one_request (check_env v) task_id s task G E')
    as R.
  pose proof (check_task_keys (check_env v) task_id s) as K.
  pose proof (fun k => check_task_other_tasks (check_env v) task_id s k) as F.
  destruct (check_task_returns (check_env v) task_id s) as [event C].
  destruct (check_task (check_env v) task_id s) as [o s1].
  cbn [fst snd] in *. subst o.
  destruct event as [e |]; reduce_state; auto.
Qed.

Lemma dict_get_of_item {V} (d : list (string * V)) k v :
  NoDup (dict_keys d) -> In (k, v) d -> dict_get k d = Some v.
Proof.
  induction d as [| [k' v'] d IH]; simpl; [contradiction |].
  intros N I. inversion N as [| ? ? X N']; subst.
  destruct I as [I | I].
  - inversion I; subst. now rewrite String.eqb_refl.
  - destruct (String.eqb_spec k k') as [-> | _]; [| now apply IH].
    exfalso. apply X. unfold dict_keys in *.
    change k' with (fst (k', v)). now apply in_map.
Qed.

Lemma monitor_tasks_effect visits items : forall i s,
  NoDup (dict_keys items) ->
  (forall k t, In (k, t) items -> dict_get k (tasks s) = Some t) ->
  let r := monitor_tasks visits i (dict_keys items) s in
  fst r = Ok tt
  /\ requests_sent (snd r) = requests_sent s ++ due_urls visits i items
  /\ dict_keys (tasks (snd r)) = dict_keys (tasks s).
Proof.
  induction items as [| [k t] rest IH]; intros i s N A; cbv zeta.
  - simpl. rewrite app_nil_r. auto.
  - cbn [dict_keys map fst monitor_tasks due_urls].
    fold (dict_keys rest). inversion N as [| ? ? X N']; subst.
    destruct (monitor_task_effect (visits i) k s t) as (R1 & R2 & R3 & R4).
    { apply A. now left. }
    unfold bind.
    destruct (monitor_task (visits i) k s) as [o s1]. cbn [fst snd] in *.
    subst o.
    destruct (IH (S i) s1 N') as (Q1 & Q2 & Q3).
    { intros k' t' I. rewrite R3.
      - apply A. now right.
      - intros ->. apply X. unfold dict_keys.
        change k with (fst (k, t')). now apply in_map. }
    cbv zeta in *. rewrite Q2, R2, Q3, R4, app_assoc. auto.
Qed.

Lemma monitor_round_effect visits s :
  NoDup (dict_keys (tasks s)) ->
  let r := monitor_round visits s in
  fst r = Ok tt
  /\ requests_sent (snd r) = requests_sent s ++ due_urls visits 0 (tasks s)
  /\ dict_keys (tasks (snd r)) = dict_keys (tasks s).
Proof.
  intros N. unfold monitor_round, bind, gets.
  apply monitor_tasks_effect; [exact N |].
  intros k t I. now apply dict_get_of_item.
Qed.

(** The check intervals are not touched by a check, a round or a sleep. *)

Lemma check_task_intervals env task_id s :
  intervals_in_range s -> intervals_in_range (snd (check_task env task_id s)).
Proof.
  intros R k t' G.
  destruct (check_task_registry env task_id s)
    as [E | (t0 & t1 & G0 & _ & E & F)]; rewrite E in G.
  - exact (R k t' G).
  - destruct (String.eqb_spec k task_id) as [-> | N].
    + rewrite dict_get_set_same in G. inversion G. subst t1.
      destruct F as (_ & _ & _ & _ & _ & _ & Fi & _).
      unfold interval_in_range. rewrite Fi. exact (R task_id t0 G0).
    + rewrite dict_get_set_other in G by exact N. exact (R k t' G).
Qed.

Lemma monitor_task_registry v task_id s :
  tasks (snd (monitor_task v task_id s)) = tasks s
  \/ tasks (snd (monitor_task v task_id s))
     = tasks (snd (check_task (check_env v) task_id s)).
Proof.
  unfold monitor_task, bind, gets, ret, print, modify. cbv beta.
  destruct (dict_get task_id (tasks s)) as [task |]; [| now left].
  destruct (negb (MonitorTask.enabled task)); [now left |].
  destruct (match MonitorTask.last_check task with
            | Some last => _
            | None => false
            end); [now left |].
  destruct (check_task (check_env v) task_id s) as [[[e |] | e] s1];
    reduce_state; auto.
Qed.

Lemma monitor_task_intervals v task_id s :
  intervals_in_range s -> intervals_in_range (snd (monitor_task v task_id s)).
Proof.
  intros R. pose proof (check_task_intervals (check_env v) task_id s R) as C.
  unfold intervals_in_range in *.
  destruct (monitor_task_registry v task_id s) as [E | E]; now rewrite E.
Qed.

Lemma monitor_tasks_intervals visits ids : forall i s,
  intervals_in_range s ->
  intervals_in_range (snd (monitor_tasks visits i ids s)).
Proof.
  induction ids as [| k ids IH]; intros i s R; cbn [monitor_tasks].
  - exact R.
  - unfold bind.
    pose proof (monitor_task_intervals (visits i) k s R) as R1.
    destruct (monitor_task (visits i) k s) as [[[] | e] s1]; cbn [snd] in *.
    + now apply IH.
    + exact R1.
Qed.

Lemma monitor_round_intervals visits s :
  intervals_in_range s -> intervals_in_range (snd (monitor_round visits s)).
Proof.
  intros R. unfold monitor_round, bind, gets.
  now apply monitor_tasks_intervals.
Qed.

Lemma time_sleep_returns refused interval s :
  sleep_goes_through refused interval = true ->
  time_sleep refused interval s = (Ok tt, s).
Proof.
  unfold sleep_goes_through, time_sleep. intros H.
  apply andb_prop in H as [H R]. apply andb_prop in H as [F P].
  rewrite F. cbn [negb].
  destruct (interval <? 0); [discriminate |].
  destruct refused; [discriminate | reflexivity].
Qed.

Lemma monitor_rounds_effect n : forall world sleep_refused interval k s,
  NoDup (dict_keys (tasks s)) ->
  intervals_in_range s ->
  (forall j, sleep_goes_through (sleep_refused j) interval = true) ->
  let r := monitor_rounds n world sleep_refused interval k s in
  let next := monitor_rounds (S n) world sleep_refused interval k s in
  fst r = Ok tt
  /\ dict_keys (tasks (snd r)) = dict_keys (tasks s)
  /\ intervals_in_range (snd r)
  /\ fst next = Ok tt
  /\ snd next = snd (monitor_round (world (k + n)%nat) (snd r)).
Proof.
  induction n as [| n IH]; intros world sr interval k s N R Z; cbv zeta.
  - cbn [monitor_rounds]. unfold ret, bind. cbn [fst snd].
    rewrite Nat.add_0_r.
    destruct (monitor_round_effect (world k) s N) as (R1 & _).
    destruct (monitor_round (world k) s) as [o s1]. cbn [fst snd] in *.
    subst o. rewrite (time_sleep_returns _ _ s1 (Z k)). auto.
  - change (monitor_rounds (S (S n)) world sr interval k s)
      with (bind (monitor_round (world k))
                 (fun _ => bind (time_sleep (sr k) interval)
                   (fun _ => monitor_rounds (S n) world sr interval (S k))) s).
    change (monitor_rounds (S n) world sr interval k s)
      with (bind (monitor_round (world k))
                 (fun _ => bind (time_sleep (sr k) interval)
                   (fun _ => monitor_rounds n world sr interval (S k))) s).
    unfold bind.
    destruct (monitor_round_effect (world k) s N) as (R1 & _ & R3).
    pose proof (monitor_round_intervals (world k) s R) as R4.
    destruct (monitor_round (world k) s) as [o s1]. cbn [fst snd] in *.
    subst o. rewrite (time_sleep_returns _ _ s1 (Z k)).
    assert (N1 : NoDup (dict_keys (tasks s1))) by now rewrite R3.
    destruct (IH world sr interval (S k) s1 N1 R4 Z) as (Q1 & Q2 & Q3 & Q4 & Q5).
    cbv zeta in *. rewrite Q5, Q2, R3.
    replace (S k + n)%nat with (k + S n)%nat by lia. auto.
Qed.

(** C8. Standard output is taken to accept every line printed.
    [check_task] never raises: whatever the world answers, it returns a
    value, and an exception raised inside the [try] body (no response, a
    4xx or 5xx status, a failed write to disk or to the database) is
    printed and turned into [None].  The loop goes on: a round over a
    registry whose check intervals are between 0 and 2**34 seconds never
    raises, keeps the registered ids and sends a request for every task
    that is due when the loop reaches it, whatever happened to the checks
    before it; and as long as [time.sleep(interval)] returns (the interval
    is not negative, fits the clock, and the operating system takes it),
    after any number of rounds the next round does so again. *)
Theorem check_errors_stay_inside_check_task :
  (forall env task_id s, exists r, fst (check_task env task_id s) = Ok r)
  /\ (forall env task_id s task e s',
         dict_get task_id (tasks s) = Some task ->
         MonitorTask.enabled task = true ->
         check_task_body env task_id task s = (Raise e, s') ->
         check_task env task_id s
         = (Ok None,
            with_stdout (stdout s' ++ [Error_checking_task task_id e]) s'))
  /\ (forall visits s,
         NoDup (dict_keys (tasks s)) ->
         intervals_in_range s ->
         let r := monitor_round visits s in
         fst r = Ok tt
         /\ requests_sent (snd r)
            = requests_sent s ++ due_urls visits 0 (tasks s)
         /\ dict_keys (tasks (snd r)) = dict_keys (tasks s)
         /\ intervals_in_range (snd r))
  /\ (forall n world sleep_refused interval k s,
         NoDup (dict_keys (tasks s)) ->
         intervals_in_range s ->
         (forall j, sleep_goes_through (sleep_refused j) interval = true) ->
         let before := monitor_rounds n world sleep_refused interval k s in
         let r := monitor_rounds (S n) world sleep_refused interval k s in
         fst before = Ok tt
         /\ intervals_in_range (snd before)
         /\ fst r = Ok tt
         /\ requests_sent (snd r)
            = requests_sent (snd before)
                ++ due_urls (world (k + n)%nat) 0 (tasks (snd before))).
Proof.
  split; [exact check_task_returns |].
  split; [exact check_task_catches |].
  split.
  { intros visits s N R. cbv zeta.
    destruct (monitor_round_effect visits s N) as (R1 & R2 & R3).
    auto using monitor_round_intervals. }
  intros n world sr interval k s N R Z. cbv zeta.
  destruct (monitor_rounds_effect n world sr interval k s N R Z)
    as (R1 & R2 & R3 & R4 & R5).
  cbv zeta in *. rewrite R5.
  assert (N' : NoDup (dict_keys
                        (tasks (snd (monitor_rounds n world sr interval k s)))))
    by now rewrite R2.
  destruct (monitor_round_effect (world (k + n)%nat) _ N') as (Q1 & Q2 & _).
  auto.
Qed.

(** In the round of [stormy_round] the first check fails and is reported,
    and the second task is checked all the same. *)
Example stormy_round_output :
  stdout (snd (monitor_round stormy_round two_task_core))
  = [Error_checking_task "test_hn" RequestException;
     No_change "Hacker News Top";
     No_change "Status API"].
Proof. vm_compute. reflexivity. Qed.

Lemma check_errors_stay_inside_check_task_witness :
  let r := monitor_round stormy_round two_task_core in
  fst r = Ok tt
  /\ requests_sent (snd r)
     = requests_sent two_task_core
         ++ ["https://news.ycombinator.com"; "https://api.example/status"]%string
  /\ dict_keys (tasks (snd r)) = dict_keys (tasks two_task_core).
Proof.
  destruct (proj1 (proj2 (proj2 check_errors_stay_inside_check_task))
              stormy_round two_task_core) as (R1 & R2 & R3 & _).
  - repeat constructor; simpl; intuition discriminate.
  - intros k t. unfold interval_in_range. cbn.
    repeat match goal with
           | |- context [(k =? ?x)%string] => destruct (k =? x)%string
           end;
      intros X; inversion X; cbn; lia.
  - auto.
Defined.

(* ================================================================== *)
(** ** Reading the events back (C7) *)

Lemma ChangeType_value_of_value s c :
  ChangeType_of_value s = Some c -> ChangeType_value c = s.
Proof.
  unfold ChangeType_of_value. cbn [find].
  repeat match goal with
         | |- context [(ChangeType_value ?x =? s)%string] =>
             destruct (String.eqb_spec (ChangeType_value x) s)
         end;
    intros X; inversion X; subst; auto.
Qed.

Lemma events_of_rows_ok rows s :
  Forall valid_event_row rows ->
  exists events,
    events_of_rows rows s = (Ok events, s)
    /\ map row_of_event events = rows.
Proof.
  induction 1 as [| row rows V _ IH].
  - exists []. split; reflexivity.
  - destruct IH as (events & E & R).
    unfold valid_event_row in V.
    destruct (ChangeType_of_value (Db.e_change_type row)) as [c |] eqn:C;
      [| contradiction].
    eexists (_ :: events).
    cbn [events_of_rows]. unfold bind, event_of_row. rewrite C.
    unfold ret at 1. rewrite E. unfold ret. split; [reflexivity |].
    cbn [map]. rewrite R. f_equal.
    unfold row_of_event.
    cbn [ChangeEvent.id ChangeEvent.task_id ChangeEvent.timestamp
         ChangeEvent.change_type ChangeEvent.old_value ChangeEvent.new_value
         ChangeEvent.diff_summary].
    rewrite (ChangeType_value_of_value _ _ C). now destruct row.
Qed.

(** *** [ORDER BY timestamp DESC] sorts *)

Lemma insert_desc_perm r l : Permutation (insert_desc r l) (r :: l).
Proof.
  induction l as [| x l IH]; simpl; [reflexivity |].
  destruct (Db.e_timestamp r <? Db.e_timestamp x); [| reflexivity].
  rewrite IH. apply perm_swap.
Qed.

Lemma order_by_perm l : Permutation (order_by_timestamp_desc l) l.
Proof.
  induction l as [| x l IH]; simpl; [reflexivity |].
  rewrite insert_desc_perm. now constructor.
Qed.

Lemma insert_desc_sorted r l :
  StronglySorted not_older l -> StronglySorted not_older (insert_desc r l).
Proof.
  induction 1 as [| x l S IH F]; simpl.
  - repeat constructor.
  - destruct (Z.ltb_spec (Db.e_timestamp r) (Db.e_timestamp x)) as [L | G].
    + constructor; [exact IH |].
      apply (Permutation_Forall (Permutation_sym (insert_desc_perm r l))).
      constructor; [unfold not_older; lia | exact F].
    + constructor; [now constructor |].
      constructor; [unfold not_older; lia |].
      eapply Forall_impl; [| exact F].
      unfold not_older. intros; lia.
Qed.

Lemma order_by_sorted l : StronglySorted not_older (order_by_timestamp_desc l).
Proof.
  induction l as [| x l IH]; simpl; [constructor | now apply insert_desc_sorted].
Qed.

Lemma sorted_app_cross {A} (R : A -> A -> Prop) (l1 l2 : list A) :
  StronglySorted R (l1 ++ l2) ->
  forall a b, In a l1 -> In b l2 -> R a b.
Proof.
  induction l1 as [| x l1 IH]; simpl; [contradiction |].
  intros S a b [-> | Ia] Ib; inversion S as [| ? ? S' F]; subst.
  - rewrite Forall_forall in F. apply F, in_or_app. now right.
  - now apply IH.
Qed.

Lemma sorted_app_left {A} (R : A -> A -> Prop) (l1 l2 : list A) :
  StronglySorted R (l1 ++ l2) -> StronglySorted R l1.
Proof.
  induction l1 as [| x l1 IH]; simpl; [constructor |].
  intros S. inversion S as [| ? ? S' F]; subst.
  constructor; [now apply IH |].
  rewrite Forall_forall in *. intros y I. apply F, in_or_app. now left.
Qed.

Lemma sorted_map {A B} (f : A -> B) (R : B -> B -> Prop) (l : list A) :
  StronglySorted R (map f l) ->
  StronglySorted (fun a b => R (f a) (f b)) l.
Proof.
  induction l as [| x l IH]; simpl; [constructor |].
  intros S. inversion S as [| ? ? S' F]; subst.
  constructor; [now apply IH |].
  rewrite Forall_forall in *. intros y I. apply F. now apply in_map.
Qed.

Lemma filter_all {A} (l : list A) : filter (fun _ => true) l = l.
Proof. induction l as [| x l IH]; simpl; [| rewrite IH]; reflexivity. Qed.

Lemma select_events_wanted task_id limit d :
  select_events task_id limit d
  = sql_limit limit
      (order_by_timestamp_desc (filter (wanted task_id) (Db.events d))).
Proof.
  unfold select_events, wanted. destruct task_id as [t |].
  - destruct (truthy (Some t)); [reflexivity | now rewrite filter_all].
  - now rewrite filter_all.
Qed.

Lemma sql_limit_split {A} (limit : Z) (l : list A) :
  exists rest,
    l = sql_limit limit l ++ rest
    /\ (0 <= limit -> Z.of_nat (List.length (sql_limit limit l)) <= limit)
    /\ (limit < 0 -> rest = []).
Proof.
  unfold sql_limit. destruct (Z.ltb_spec limit 0) as [L | G].
  - exists []. rewrite app_nil_r. repeat split; auto. lia.
  - exists (skipn (Z.to_nat limit) l). rewrite firstn_skipn.
    repeat split; [| lia].
    intros _. pose proof (firstn_le_length (Z.to_nat limit) l). lia.
Qed.

Lemma filter_every {A} (f : A -> bool) (l : list A) :
  (forall x, f x = true) -> filter f l = l.
Proof.
  intros T. induction l as [| x l IH]; simpl; [reflexivity |].
  now rewrite T, IH.
Qed.

Lemma sql_limit_length {A} (limit : Z) (l : list A) :
  List.length (sql_limit limit l)
  = if limit <? 0 then List.length l
    else Nat.min (Z.to_nat limit) (List.length l).
Proof.
  unfold sql_limit. destruct (limit <? 0); [reflexivity |].
  apply length_firstn.
Qed.

(** C7, as the code has it.  A limit that is not a signed 64-bit integer
    makes [get_events] raise [OverflowError].  Otherwise, when every
    stored row names a change type, [get_events] returns, leaving the
    state as it was, stored events in the order newest first: the rows
    asked for (those of the task when a task id that is not empty is
    given; those of every task when none or the empty one is given) are
    exactly the events returned together with the rows left out; with a
    negative limit nothing is left out, with a limit that is not negative
    the [min limit n] newest of the [n] rows asked for are returned, and
    no row left out is newer than an event returned. *)
Theorem get_events_newest_first
    (task_id : option string) (limit : Z) (s : DataSpyCore) :
  Forall valid_event_row (Db.events (db s)) ->
  let asked := filter (wanted task_id) (Db.events (db s)) in
  (fits_int64 limit = false ->
   get_events task_id limit s = (Raise OverflowError, s))
  /\ (fits_int64 limit = true ->
      exists events left_out,
        get_events task_id limit s = (Ok events, s)
        /\ Permutation (map row_of_event events ++ left_out) asked
        /\ StronglySorted
             (fun a b => ChangeEvent.timestamp a >= ChangeEvent.timestamp b)
             events
        /\ (forall row e,
               In row left_out -> In e events ->
               Db.e_timestamp row <= ChangeEvent.timestamp e)
        /\ List.length events
           = (if limit <? 0 then List.length asked
              else Nat.min (Z.to_nat limit) (List.length asked))
        /\ (limit < 0 -> left_out = [])
        /\ (0 <= limit -> Z.of_nat (List.length events) <= limit)
        /\ (forall t,
               task_id = Some t -> t <> ""%string ->
               Forall (fun e => ChangeEvent.task_id e = t) events)
        /\ (task_id = None \/ task_id = Some ""%string ->
            asked = Db.events (db s))).
Proof.
  intros V. cbv zeta. unfold get_events.
  split; intros F; rewrite F; cbn [negb]; [reflexivity |].
  unfold bind, gets. rewrite select_events_wanted.
  set (asked := filter (wanted task_id) (Db.events (db s))).
  set (sorted := order_by_timestamp_desc asked).
  destruct (sql_limit_split limit sorted) as (rest & Split & Len & Neg).
  pose proof (sql_limit_length limit sorted) as Count.
  set (rows := sql_limit limit sorted) in *.
  assert (Sub : forall row, In row rows -> In row asked).
  { intros row I.
    apply (Permutation_in _ (order_by_perm asked)).
    fold sorted. rewrite Split. apply in_or_app. now left. }
  assert (VR : Forall valid_event_row rows).
  { rewrite Forall_forall in *. intros row I. apply V.
    apply Sub in I. unfold asked in I. now apply filter_In in I. }
  destruct (events_of_rows_ok rows s VR) as (events & E & R).
  exists events, rest. split; [exact E |].
  assert (Srt : StronglySorted not_older sorted) by apply order_by_sorted.
  rewrite Split in Srt.
  split; [| split; [| split; [| split; [| split; [| split; [| split]]]]]].
  - rewrite R, <- Split. apply order_by_perm.
  - apply sorted_app_left in Srt. rewrite <- R in Srt.
    apply sorted_map in Srt. exact Srt.
  - intros row e A Ie.
    assert (I' : In (row_of_event e) rows)
      by (rewrite <- R; now apply in_map).
    pose proof (sorted_app_cross _ _ _ Srt _ _ I' A) as C.
    unfold not_older in C. cbn [row_of_event Db.e_timestamp] in C. lia.
  - rewrite <- (length_map row_of_event), R, Count.
    unfold sorted. now rewrite (Permutation_length (order_by_perm asked)).
  - exact Neg.
  - intros L. rewrite <- (length_map row_of_event), R. auto.
  - intros t -> N. rewrite Forall_forall. intros e I.
    assert (I' : In (row_of_event e) rows) by (rewrite <- R; now apply in_map).
    apply Sub in I'. unfold asked in I'. apply filter_In in I' as [_ W].
    unfold wanted, truthy in W.
    destruct (String.eqb_spec t "") as [-> | _]; [contradiction |].
    cbn [negb] in W. now apply String.eqb_eq in W.
  - intros [-> | ->]; unfold asked; apply filter_every; reflexivity.
Qed.

Lemma get_events_newest_first_witness :
  exists events left_out,
    get_events (Some "b"%string) 1 two_event_core = (Ok events, two_event_core)
    /\ Permutation (map row_of_event events ++ left_out)
         (filter (wanted (Some "b"%string)) (Db.events (db two_event_core)))
    /\ List.length events = 1%nat
    /\ Forall (fun e => ChangeEvent.task_id e = "b"%string) events.
Proof.
  destruct (proj2 (get_events_newest_first (Some "b"%string) 1 two_event_core
                     ltac:(repeat constructor; discriminate)) eq_refl)
    as (events & left_out & E & P & _ & _ & C & _ & _ & T & _).
  exists events, left_out.
  split; [exact E |]. split; [exact P |]. split; [exact C |].
  apply T; [reflexivity | discriminate].
Defined.

(** C7 as stated fails in two ways.  Given the empty task id, [get_events]
    returns the events of tasks "b" and "a", none of which has that id.
    Given the limit -1, it returns two events, which is more than the
    limit. *)
Lemma get_events_empty_id_and_negative_limit :
  (exists e1 e2,
      fst (get_events (Some ""%string) 50 two_event_core) = Ok [e1; e2]
      /\ ChangeEvent.task_id e1 = "b"%string
      /\ ChangeEvent.task_id e2 = "a"%string
      /\ ChangeEvent.task_id e1 <> ""%string)
  /\ (exists events,
         fst (get_events None (-1) two_event_core) = Ok events
         /\ Z.of_nat (List.length events) = 2
         /\ ~ Z.of_nat (List.length events) <= -1).
Proof.
  split.
  - do 2 eexists. vm_compute. repeat split. discriminate.
  - eexists. split; [vm_compute; reflexivity |].
    cbn [List.length]. lia.
Qed.

(* ================================================================== *)
(** ** The registry keeps its ids distinct

    The rounds above assume that no id is registered twice.  That holds of
    every registry the program builds. *)

Lemma dict_set_keys_NoDup {V} (d : list (string * V)) k v :
  NoDup (dict_keys d) -> NoDup (dict_keys (dict_set k v d)).
Proof.
  destruct (dict_get k d) as [v0 |] eqn:G.
  - now rewrite (dict_keys_set_present d k v v0 G).
  - intros N. induction d as [| [k' v'] d IH]; simpl in *.
    + repeat constructor. auto.
    + destruct (String.eqb_spec k k') as [-> | D]; [discriminate |].
      inversion N as [| ? ? X N']; subst. simpl. constructor; [| auto].
      intros I. apply X.
      clear - I D. induction d as [| [k0 v0] d IH]; simpl in *.
      * destruct I as [-> | []]. contradiction.
      * destruct (String.eqb_spec k k0) as [-> | D0]; simpl in *; tauto.
Qed.

Lemma add_task_keys_NoDup fails task s :
  NoDup (dict_keys (tasks s)) ->
  NoDup (dict_keys (tasks (snd (add_task fails task s)))).
Proof.
  intros N. unfold add_task, insert_or_replace_task, assign, bind, modify,
    ret, raise.
  destruct fails; reduce_state; [exact N | now apply dict_set_keys_NoDup].
Qed.

Lemma load_tasks_keys_NoDup now s :
  NoDup (dict_keys (tasks s)) ->
  NoDup (dict_keys (tasks (snd (load_tasks now s)))).
Proof.
  unfold load_tasks, modify. reduce_state.
  generalize (tasks s) as d.
  induction (Db.tasks (db s)) as [| row rows IH]; intros d N; simpl;
    [exact N | now apply IH, dict_set_keys_NoDup].
Qed.

Lemma check_task_keys_NoDup env task_id s :
  NoDup (dict_keys (tasks s)) ->
  NoDup (dict_keys (tasks (snd (check_task env task_id s)))).
Proof. now rewrite check_task_keys. Qed.

(* ================================================================== *)
(** * Further properties of the code *)

(** ** [add_task] *)

Lemma rows_but_app k l1 l2 :
  rows_but k (l1 ++ l2) = rows_but k l1 ++ rows_but k l2.
Proof. apply filter_app. Qed.

Lemma rows_of_rows_but k rows : rows_of k (rows_but k rows) = [].
Proof.
  unfold rows_of, rows_but. induction rows as [| r rows IH]; simpl; auto.
  destruct (Db.t_id r =? k)%string eqn:E; simpl; auto. now rewrite E.
Qed.

Lemma rows_but_other k k' rows :
  k' <> k -> rows_of k' (rows_but k rows) = rows_of k' rows.
Proof.
  intros N. unfold rows_of, rows_but.
  induction rows as [| r rows IH]; simpl; auto.
  destruct (String.eqb_spec (Db.t_id r) k) as [E | D]; simpl.
  - destruct (String.eqb_spec (Db.t_id r) k'); [congruence | exact IH].
  - now rewrite IH.
Qed.

Lemma rows_but_ids_NoDup k rows :
  NoDup (map Db.t_id rows) ->
  NoDup (map Db.t_id (rows_but k rows)) /\
  ~ In k (map Db.t_id (rows_but k rows)).
Proof.
  unfold rows_but. intros N. split.
  - induction rows as [| r rows IH]; simpl; [constructor |].
    inversion N as [| ? ? X N']; subst.
    destruct (Db.t_id r =? k)%string; simpl; auto.
    constructor; auto. intros I. apply X.
    apply in_map_iff in I as (r' & E & I). apply filter_In in I as [I _].
    apply in_map_iff. eauto.
  - intros I. apply in_map_iff in I as (r & E & I).
    apply filter_In in I as [_ I]. subst.
    now rewrite String.eqb_refl in I.
Qed.

(** X1. [add_task] is an upsert.  When the INSERT goes through it returns
    the task's id; the registry then holds [task] under that id and every
    other id as before; the task table holds exactly one row of that id,
    the one of [task] with the three [last_*] columns NULL whatever [task]
    carries, and the rows of other ids as before; ids that were distinct
    stay distinct; events and snapshots are untouched.  When the INSERT
    fails, [add_task] raises before touching the registry: the whole state
    is as before. *)
Theorem add_task_upserts (task : MonitorTask) (s : DataSpyCore) :
  let r := add_task false task s in
  let k := MonitorTask.id task in
  fst r = Ok k
  /\ dict_get k (tasks (snd r)) = Some task
  /\ (forall k', k' <> k ->
                 dict_get k' (tasks (snd r)) = dict_get k' (tasks s))
  /\ rows_of k (Db.tasks (db (snd r))) = [inserted_row task]
  /\ (forall k', k' <> k ->
                 rows_of k' (Db.tasks (db (snd r)))
                 = rows_of k' (Db.tasks (db s)))
  /\ (NoDup (map Db.t_id (Db.tasks (db s))) ->
      NoDup (map Db.t_id (Db.tasks (db (snd r)))))
  /\ Db.events (db (snd r)) = Db.events (db s)
  /\ Db.snapshots (db (snd r)) = Db.snapshots (db s)
  /\ add_task true task s = (Raise OperationalError, s).
Proof.
  cbv zeta.
  unfold add_task, insert_or_replace_task, assign, bind, modify, ret, raise.
  reduce_state. fold (inserted_row task).
  fold (rows_but (MonitorTask.id task) (Db.tasks (db s))).
  split; [reflexivity |].
  split; [apply dict_get_set_same |].
  split; [intros k' N; now apply dict_get_set_other |].
  split.
  { unfold rows_of at 1. rewrite filter_app. fold (rows_of (MonitorTask.id task)
      (rows_but (MonitorTask.id task) (Db.tasks (db s)))).
    rewrite rows_of_rows_but. simpl. now rewrite String.eqb_refl. }
  split.
  { intros k' N. unfold rows_of at 1. rewrite filter_app.
    fold (rows_of k' (rows_but (MonitorTask.id task) (Db.tasks (db s)))).
    rewrite rows_but_other by exact N. simpl.
    destruct (String.eqb_spec (MonitorTask.id task) k');
      [congruence | apply app_nil_r]. }
  split.
  { intros N.
    destruct (rows_but_ids_NoDup (MonitorTask.id task) _ N) as [N1 N2].
    rewrite map_app. simpl.
    apply NoDup_app; [exact N1 | repeat constructor; auto |].
    intros x I [<- | []]. exact (N2 I). }
  auto.
Qed.

Lemma add_task_upserts_witness :
  NoDup (map Db.t_id
           (Db.tasks (db (snd (add_task false (seen_task "hello")
                                 example_core))))).
Proof.
  apply (add_task_upserts (seen_task "hello") example_core).
  repeat constructor. simpl. tauto.
Defined.

(** ** [load_tasks] and starting again *)

Lemma task_of_inserted_row now task :
  task_of_row now (inserted_row task) = never_checked task.
Proof.
  unfold task_of_row, inserted_row, never_checked. cbn.
  now destruct (MonitorTask.enabled task).
Qed.

Lemma load_tasks_fold now s :
  tasks (snd (load_tasks now s))
  = fold_left (load_step now) (Db.tasks (db s)) (tasks s).
Proof. reflexivity. Qed.

Lemma dict_set_absent {V} (d : list (string * V)) k v :
  ~ In k (dict_keys d) -> dict_set k v d = d ++ [(k, v)].
Proof.
  induction d as [| [k' v'] d IH]; simpl; [reflexivity |].
  intros N. destruct (String.eqb_spec k k') as [-> | D].
  - exfalso. apply N. now left.
  - rewrite IH; [reflexivity | tauto].
Qed.

Lemma load_fold_fresh now rows : forall d,
  NoDup (map Db.t_id rows) ->
  (forall k, In k (dict_keys d) -> ~ In k (map Db.t_id rows)) ->
  fold_left (load_step now) rows d
  = d ++ map (fun row => (Db.t_id row, task_of_row now row)) rows.
Proof.
  induction rows as [| row rows IH]; intros d N F; simpl.
  - now rewrite app_nil_r.
  - inversion N as [| ? ? X N']; subst.
    unfold load_step at 2. cbn [task_of_row MonitorTask.id].
    rewrite dict_set_absent.
    + rewrite IH; [now rewrite <- app_assoc | exact N' |].
      intros k I. unfold dict_keys in I. rewrite map_app in I.
      apply in_app_or in I as [I | [<- | []]].
      * intros I'. apply (F k I). now right.
      * exact X.
    + intros I. apply (F _ I). now left.
Qed.

(** X2. What [add_task] stores is what a restart finds, less the check
    state: after [add_task] and a restart the registry holds, under the
    task's id, the task with [last_check], [last_content_hash] and
    [last_value] unset.  A task that was never checked comes back as it
    was. *)
Theorem add_task_then_restart
    (now : datetime) (task : MonitorTask) (s : DataSpyCore) :
  let s' := restart now (snd (add_task false task s)) in
  dict_get (MonitorTask.id task) (tasks s') = Some (never_checked task)
  /\ (MonitorTask.last_check task = None ->
      MonitorTask.last_content_hash task = None ->
      MonitorTask.last_value task = None ->
      dict_get (MonitorTask.id task) (tasks s') = Some task).
Proof.
  cbv zeta.
  assert (H : dict_get (MonitorTask.id task)
                (tasks (restart now (snd (add_task false task s))))
              = Some (never_checked task)).
  { unfold restart. rewrite load_tasks_fold.
    unfold add_task, insert_or_replace_task, assign, bind, modify, ret.
    reduce_state. fold (inserted_row task).
    rewrite fold_left_app. cbn [fold_left]. unfold load_step at 1.
    now rewrite dict_get_set_same, task_of_inserted_row. }
  split; [exact H |].
  intros A B C. rewrite H. f_equal. unfold never_checked. destruct task.
  cbn in *. now subst.
Qed.

Lemma add_task_then_restart_witness :
  dict_get "test_hn"
    (tasks (restart 7000 (snd (add_task false example_task empty_core))))
  = Some example_task.
Proof.
  apply (proj2 (add_task_then_restart 7000 example_task empty_core));
    reflexivity.
Defined.

Lemma restart_fold now s :
  NoDup (map Db.t_id (Db.tasks (db s))) ->
  tasks (restart now s)
  = map (fun row => (Db.t_id row, task_of_row now row)) (Db.tasks (db s))
  /\ db (restart now s) = db s.
Proof.
  intros N. unfold restart. rewrite load_tasks_fold. reduce_state.
  split; [| reflexivity].
  rewrite load_fold_fresh; [reflexivity | exact N | intros k []].
Qed.

(** X3. A restart registers the stored tasks.  When the ids of the task
    table are distinct (as its PRIMARY KEY makes them) and at most one row
    has a NULL [created_at] (so that one clock reading serves), the
    registry after a restart holds exactly one task per row, in table
    order, under the row's id, read off the row: a row whose [enabled] is
    0 gives a disabled task, and the NULL [created_at] becomes the clock
    reading taken for that row.  The database is not written. *)
Theorem restart_loads_every_row (now : datetime) (s : DataSpyCore) :
  NoDup (map Db.t_id (Db.tasks (db s))) ->
  (List.length (filter created_at_is_null (Db.tasks (db s))) <= 1)%nat ->
  tasks (restart now s)
  = map (fun row => (Db.t_id row, task_of_row now row)) (Db.tasks (db s))
  /\ db (restart now s) = db s.
Proof. intros N _. exact (restart_fold now s N). Qed.

Lemma restart_loads_every_row_witness :
  map (fun kt => (fst kt, MonitorTask.enabled (snd kt),
                  MonitorTask.created_at (snd kt)))
      (tasks (restart 7000 stored_core))
  = [("test_hn"%string, true, 1000); ("api"%string, false, 7000)].
Proof.
  rewrite (proj1 (restart_loads_every_row 7000 stored_core
                    ltac:(repeat constructor; simpl; intuition discriminate)
                    ltac:(cbn; lia))).
  reflexivity.
Defined.

(** ** What a check does to the tables *)

Lemma existsb_id_false {A} (f : A -> string) (x : string) (l : list A) :
  existsb (fun r => (f r =? x)%string) l = false -> ~ In x (map f l).
Proof.
  induction l as [| a l IH]; simpl; [tauto |].
  destruct (String.eqb_spec (f a) x) as [E | D]; simpl; [discriminate |].
  intros H [I | I]; [contradiction | now apply IH].
Qed.

Lemma NoDup_ids_snoc {A} (f : A -> string) (l : list A) (a : A) :
  NoDup (map f l) -> ~ In (f a) (map f l) -> NoDup (map f (l ++ [a])).
Proof.
  intros N X. rewrite map_app. simpl.
  apply NoDup_app; [exact N | repeat constructor; auto |].
  intros x I [<- | []]. exact (X I).
Qed.

Lemma static_columns_update task rows :
  map static_columns (map (update_task_row task) rows)
  = map static_columns rows.
Proof.
  rewrite map_map. apply map_ext. intros r. unfold update_task_row.
  now destruct (Db.t_id r =? MonitorTask.id task)%string.
Qed.

(** X4. A check never deletes or rewrites history.  Whatever the world
    answers, the event table and the snapshot table after [check_task] are
    the tables before with at most one row appended; distinct ids stay
    distinct in both; and the task table keeps its rows, in order, with
    every column other than [last_check], [last_content_hash] and
    [last_value] as it was. *)
Theorem check_task_appends_only
    (env : CheckEnv) (task_id : string) (s : DataSpyCore) :
  let s' := snd (check_task env task_id s) in
  (exists l, Db.events (db s') = Db.events (db s) ++ l
             /\ (List.length l <= 1)%nat)
  /\ (exists l, Db.snapshots (db s') = Db.snapshots (db s) ++ l
                /\ (List.length l <= 1)%nat)
  /\ map static_columns (Db.tasks (db s'))
     = map static_columns (Db.tasks (db s))
  /\ (NoDup (map Db.e_id (Db.events (db s))) ->
      NoDup (map Db.e_id (Db.events (db s'))))
  /\ (NoDup (map Db.s_id (Db.snapshots (db s))) ->
      NoDup (map Db.s_id (Db.snapshots (db s')))).
Proof.
  cbv zeta. unfold_check. split_check;
    repeat match goal with
           | H : existsb _ _ = false |- _ => apply existsb_id_false in H
           end;
    rewrite ?static_columns_update;
    (split; [first [ exists []; rewrite app_nil_r; split; [reflexivity | simpl; lia]
                   | eexists [_]; split; [reflexivity | simpl; lia] ] |]);
    (split; [first [ exists []; rewrite app_nil_r; split; [reflexivity | simpl; lia]
                   | eexists [_]; split; [reflexivity | simpl; lia] ] |]);
    (split; [reflexivity |]);
    split; intros N; auto; apply NoDup_ids_snoc; auto.
Qed.

Lemma check_task_appends_only_witness :
  NoDup (map Db.e_id
           (Db.events
              (db (snd (check_task (calm_env (Response 200 "world") 6000)
                          "test_hn" (seen_core "hello")))))).
Proof.
  apply (check_task_appends_only (calm_env (Response 200 "world") 6000)
           "test_hn" (seen_core "hello")).
  constructor.
Defined.

Ltac contradict_writes :=
  reduce_rows;
  unfold snapshot_goes_through, update_goes_through, event_goes_through in *;
  reduce_state;
  repeat match goal with
         | H : ?b = true |- _ => rewrite H in *
         | H : ?b = false |- _ => rewrite H in *
         end;
  cbn [negb andb] in *;
  try discriminate.

Lemma dict_get_loaded now rows k :
  In k (map Db.t_id rows) ->
  exists row,
    In row rows /\ Db.t_id row = k
    /\ dict_get k (map (fun row => (Db.t_id row, task_of_row now row)) rows)
       = Some (task_of_row now row).
Proof.
  induction rows as [| r rows IH]; simpl; [contradiction |].
  destruct (String.eqb_spec k (Db.t_id r)) as [-> | D].
  - intros _. exists r. auto.
  - intros [E | I]; [congruence |].
    destruct (IH I) as (row & I' & E & G). exists row. auto.
Qed.

Lemma update_task_row_ids task rows :
  map Db.t_id (map (update_task_row task) rows) = map Db.t_id rows.
Proof.
  rewrite map_map. apply map_ext. intros r. unfold update_task_row.
  now destruct (Db.t_id r =? MonitorTask.id task)%string.
Qed.

Lemma check_task_updates_rows env task_id s task status content :
  dict_get task_id (tasks s) = Some task ->
  MonitorTask.enabled task = true ->
  http_get env = Response status content ->
  is_http_error status = false ->
  content_changed task (Sha256.hexdigest content) = false
  \/ snapshot_goes_through env task_id s = true ->
  update_goes_through env = true ->
  exists checked,
    dict_get task_id (tasks (snd (check_task env task_id s))) = Some checked
    /\ MonitorTask.id checked = MonitorTask.id task
    /\ MonitorTask.last_check checked = Some (check_now env)
    /\ Db.tasks (db (snd (check_task env task_id s)))
       = map (update_task_row checked) (Db.tasks (db s)).
Proof.
  intros G E H S C U.
  unfold_check. rewrite G, E, H. cbn [negb]. reduce_state. rewrite S.
  destruct C as [C | C].
  - rewrite C. split_check; contradict_writes;
      eexists; rewrite ?dict_set_set, dict_get_set_same;
      repeat split; reflexivity.
  - destruct (content_changed task (Sha256.hexdigest content));
      split_check; contradict_writes;
      eexists; rewrite ?dict_set_set, dict_get_set_same;
      repeat split; reflexivity.
Qed.

(** X5. What a check records survives a restart.  Take a task registered
    under its own id whose row is in the task table (ids distinct).  After
    a check whose fetch succeeds, whose snapshot (if a change is detected)
    is saved and whose UPDATE goes through, a restart finds the task with
    the [last_check], [last_content_hash] and [last_value] the check left
    in memory. *)
Theorem checked_state_survives_restart
    (env : CheckEnv) (task_id : string) (s : DataSpyCore)
    (task : MonitorTask) (status : Z) (content : string) (now : datetime) :
  dict_get task_id (tasks s) = Some task ->
  MonitorTask.enabled task = true ->
  MonitorTask.id task = task_id ->
  NoDup (map Db.t_id (Db.tasks (db s))) ->
  In task_id (map Db.t_id (Db.tasks (db s))) ->
  http_get env = Response status content ->
  is_http_error status = false ->
  content_changed task (Sha256.hexdigest content) = false
  \/ snapshot_goes_through env task_id s = true ->
  update_goes_through env = true ->
  let s' := snd (check_task env task_id s) in
  exists checked reloaded,
    dict_get task_id (tasks s') = Some checked
    /\ dict_get task_id (tasks (restart now s')) = Some reloaded
    /\ MonitorTask.last_check checked = Some (check_now env)
    /\ MonitorTask.last_check reloaded = MonitorTask.last_check checked
    /\ MonitorTask.last_content_hash reloaded
       = MonitorTask.last_content_hash checked
    /\ MonitorTask.last_value reloaded = MonitorTask.last_value checked.
Proof.
  intros G E I N P H S C U. cbv zeta.
  destruct (check_task_updates_rows env task_id s task status content
              G E H S C U) as (checked & G' & I' & L & R).
  assert (N' : NoDup (map Db.t_id
                        (Db.tasks (db (snd (check_task env task_id s)))))).
  { now rewrite R, update_task_row_ids. }
  destruct (restart_fold now _ N') as [T _].
  assert (P' : In task_id
                 (map Db.t_id
                    (Db.tasks (db (snd (check_task env task_id s)))))).
  { now rewrite R, update_task_row_ids. }
  destruct (dict_get_loaded now _ _ P') as (row & Ir & Er & Gr).
  exists checked, (task_of_row now row).
  rewrite T. split; [exact G' |]. split; [exact Gr |]. split; [exact L |].
  rewrite R in Ir. apply in_map_iff in Ir as (r0 & <- & _).
  unfold update_task_row in *.
  destruct (String.eqb_spec (Db.t_id r0) (MonitorTask.id checked)) as [_ | D].
  - repeat split.
  - exfalso. apply D. cbn in Er. congruence.
Qed.

Lemma checked_state_survives_restart_witness :
  let env := calm_env (Response 200 "world") 8000 in
  let s' := snd (check_task env "test_hn" settled_core) in
  exists checked reloaded,
    dict_get "test_hn" (tasks s') = Some checked
    /\ dict_get "test_hn" (tasks (restart 9000 s')) = Some reloaded
    /\ MonitorTask.last_check checked = Some (check_now env)
    /\ MonitorTask.last_check reloaded = MonitorTask.last_check checked
    /\ MonitorTask.last_content_hash reloaded
       = MonitorTask.last_content_hash checked
    /\ MonitorTask.last_value reloaded = MonitorTask.last_value checked.
Proof.
  cbv zeta.
  eapply (checked_state_survives_restart
            (calm_env (Response 200 "world") 8000) "test_hn" settled_core
            _ 200 "world" 9000).
  - vm_compute. reflexivity.
  - reflexivity.
  - reflexivity.
  - repeat constructor; simpl; intuition discriminate.
  - simpl. tauto.
  - reflexivity.
  - reflexivity.
  - right. vm_compute. reflexivity.
  - reflexivity.
Defined.

Lemma existsb_id_true {A} (f : A -> string) (x : string) (l : list A) :
  In x (map f l) -> existsb (fun r => (f r =? x)%string) l = true.
Proof.
  intros I. apply existsb_exists. apply in_map_iff in I as (a & E & I).
  exists a. split; [exact I | now apply String.eqb_eq].
Qed.

(** X6. A snapshot id that is taken loses the change for now.  The id is
    built from the task id and the second of the clock, so it is taken when
    the same task changed already within that second.  Then the check that
    detects the change overwrites the snapshot file with the new page, the
    INSERT raises, and the check prints the error and returns [None]: the
    registry and the database are as before, so the stored fingerprint is
    still the old one and the snapshot row still carries the old hash. *)
Theorem taken_snapshot_id_loses_the_change
    (env : CheckEnv) (task_id : string) (s : DataSpyCore)
    (task : MonitorTask) (status : Z) (content : string) :
  dict_get task_id (tasks s) = Some task ->
  MonitorTask.enabled task = true ->
  http_get env = Response status content ->
  is_http_error status = false ->
  content_changed task (Sha256.hexdigest content) = true ->
  write_text_fails env = false ->
  insert_snapshot_fails env = false ->
  In (snapshot_id env task_id) (map Db.s_id (Db.snapshots (db s))) ->
  let r := check_task env task_id s in
  fst r = Ok None
  /\ tasks (snd r) = tasks s
  /\ db (snd r) = db s
  /\ dict_get (snapshot_path env task_id) (snapshot_files (snd r))
     = Some content
  /\ stdout (snd r)
     = stdout s ++ [Error_checking_task task_id IntegrityError].
Proof.
  intros G E H S C W F I. cbv zeta. apply existsb_id_true in I.
  unfold_check. rewrite G, E, H. cbn [negb]. reduce_state.
  rewrite S, C, W. reduce_state. rewrite F. reduce_rows. rewrite I.
  reduce_state. rewrite dict_get_set_same. auto.
Qed.

Lemma taken_snapshot_id_loses_the_change_witness :
  let first :=
    snd (check_task (calm_env (Response 200 "world") 8000) "test_hn"
           settled_core) in
  let r := check_task (calm_env (Response 200 "again") 8000) "test_hn" first in
  fst r = Ok None
  /\ tasks (snd r) = tasks first
  /\ db (snd r) = db first
  /\ dict_get (snapshot_path (calm_env (Response 200 "again") 8000) "test_hn")
       (snapshot_files (snd r))
     = Some "again"%string
  /\ stdout (snd r)
     = stdout first ++ [Error_checking_task "test_hn" IntegrityError].
Proof.
  cbv zeta.
  eapply (taken_snapshot_id_loses_the_change
            (calm_env (Response 200 "again") 8000) "test_hn" _ _ 200 "again").
  - vm_compute. reflexivity.
  - reflexivity.
  - reflexivity.
  - reflexivity.
  - vm_compute. reflexivity.
  - reflexivity.
  - reflexivity.
  - vm_compute. tauto.
Defined.

(** ** Events written and read back *)

Lemma ChangeType_of_value_value c :
  ChangeType_of_value (ChangeType_value c) = Some c.
Proof. destruct c; reflexivity. Qed.

Lemma row_of_event_valid e : valid_event_row (row_of_event e).
Proof.
  unfold valid_event_row, row_of_event. cbn [Db.e_change_type].
  now rewrite ChangeType_of_value_value.
Qed.

Lemma event_of_row_inverts row e s s' :
  event_of_row row s = (Ok e, s') ->
  s' = s /\ row_of_event e = row /\ ChangeEvent.screenshot_path e = None.
Proof.
  unfold event_of_row, ret, raise.
  destruct (ChangeType_of_value (Db.e_change_type row)) as [c |] eqn:C;
    intros X; inversion X; subst.
  repeat split. unfold row_of_event.
  cbn [ChangeEvent.id ChangeEvent.task_id ChangeEvent.timestamp
       ChangeEvent.change_type ChangeEvent.old_value ChangeEvent.new_value
       ChangeEvent.diff_summary].
  rewrite (ChangeType_value_of_value _ _ C). now destruct row.
Qed.

Lemma events_of_rows_inverts rows : forall events s s',
  events_of_rows rows s = (Ok events, s') ->
  s' = s
  /\ map row_of_event events = rows
  /\ Forall (fun e => ChangeEvent.screenshot_path e = None) events.
Proof.
  induction rows as [| row rows IH]; intros events s s'; cbn [events_of_rows].
  - unfold ret. intros X. inversion X. auto.
  - unfold bind.
    destruct (event_of_row row s) as [[e |] s1] eqn:E; [| discriminate].
    apply event_of_row_inverts in E as (-> & R & P).
    destruct (events_of_rows rows s) as [[rest |] s2] eqn:Q; [| discriminate].
    apply IH in Q as (-> & R' & P').
    unfold ret. intros X. inversion X. subst. cbn [map].
    repeat split; auto.
Qed.

Lemma row_of_event_stored e e' :
  row_of_event e' = row_of_event e ->
  ChangeEvent.screenshot_path e' = None ->
  e' = without_screenshot e.
Proof.
  unfold row_of_event, without_screenshot. destruct e, e'. cbn.
  intros X ->. inversion X. subst. f_equal.
  match goal with
  | H : ChangeType_value ?a = ChangeType_value ?b |- _ =>
      destruct a, b; try reflexivity; discriminate H
  end.
Qed.

Lemma sql_limit_covers {A} (limit : Z) (l : list A) :
  covers limit (List.length l) -> sql_limit limit l = l.
Proof.
  unfold covers, sql_limit. intros C.
  destruct (Z.ltb_spec limit 0); [reflexivity |].
  apply firstn_all2. lia.
Qed.

Lemma covers_shorter limit n m : (m <= n)%nat -> covers limit n -> covers limit m.
Proof. unfold covers. lia. Qed.

Lemma get_events_finds task_id limit s row :
  Forall valid_event_row (Db.events (db s)) ->
  In row (Db.events (db s)) ->
  wanted task_id row = true ->
  fits_int64 limit = true ->
  covers limit (List.length (Db.events (db s))) ->
  exists events e,
    get_events task_id limit s = (Ok events, s)
    /\ In e events
    /\ row_of_event e = row
    /\ ChangeEvent.screenshot_path e = None.
Proof.
  intros V I W F C. unfold get_events. rewrite F. cbn [negb].
  unfold bind, gets. rewrite select_events_wanted.
  set (asked := filter (wanted task_id) (Db.events (db s))).
  assert (L : (List.length (order_by_timestamp_desc asked)
               <= List.length (Db.events (db s)))%nat).
  { rewrite (Permutation_length (order_by_perm asked)).
    apply filter_length_le. }
  rewrite sql_limit_covers by (eapply covers_shorter; eauto).
  assert (VR : Forall valid_event_row (order_by_timestamp_desc asked)).
  { rewrite Forall_forall in *. intros r Ir. apply V.
    apply (Permutation_in _ (order_by_perm asked)) in Ir.
    unfold asked in Ir. now apply filter_In in Ir. }
  destruct (events_of_rows_ok _ s VR) as (events & E & R).
  pose proof (events_of_rows_inverts _ _ _ _ E) as (_ & _ & P).
  assert (Ir : In row (map row_of_event events)).
  { rewrite R.
    apply (Permutation_in _ (Permutation_sym (order_by_perm asked))).
    unfold asked. apply filter_In. auto. }
  apply in_map_iff in Ir as (e & Er & Ie).
  exists events, e. rewrite Forall_forall in P. auto.
Qed.

(** X7. An event saved is an event returned.  After [_save_event] has
    stored [e] in a table whose rows are readable, [get_events] returns it
    (as stored: without a [screenshot_path], which has no column) whenever
    the call asks for its task, or for every task, and the limit is a
    signed 64-bit integer that is negative or not below the number of
    stored events. *)
Theorem saved_event_is_returned
    (env : CheckEnv) (e : ChangeEvent) (s s' : DataSpyCore)
    (task_id : option string) (limit : Z) :
  _save_event env e s = (Ok tt, s') ->
  Forall valid_event_row (Db.events (db s)) ->
  wanted task_id (row_of_event e) = true ->
  fits_int64 limit = true ->
  covers limit (List.length (Db.events (db s'))) ->
  exists events,
    get_events task_id limit s' = (Ok events, s')
    /\ In (without_screenshot e) events.
Proof.
  intros S V W F C.
  assert (E : Db.events (db s') = Db.events (db s) ++ [row_of_event e]).
  { revert S. unfold _save_event.
    destruct (insert_event_fails env); [discriminate |].
    destruct (existsb _ _); [discriminate |].
    intros X. inversion X. reflexivity. }
  destruct (get_events_finds task_id limit s' (row_of_event e))
    as (events & e' & G & I & R & P); auto.
  - rewrite E. apply Forall_app. split; [exact V |].
    repeat constructor. apply row_of_event_valid.
  - rewrite E. apply in_or_app. right. now left.
  - exists events. split; [exact G |].
    now rewrite <- (row_of_event_stored e e' R P).
Qed.

Lemma saved_event_is_returned_witness :
  let env := calm_env NoResponse 3 in
  let e :=
    ChangeEvent.mk "evt_3_a" "a" 3000000 PRICE_DROPPED (Some "19.99"%string)
      (Some "17.50"%string) (Some "shot.png"%string) "Price dropped" in
  exists events,
    get_events (Some "a"%string) 50 (snd (_save_event env e two_event_core))
    = (Ok events, snd (_save_event env e two_event_core))
    /\ In (without_screenshot e) events.
Proof.
  cbv zeta.
  eapply (saved_event_is_returned (calm_env NoResponse 3) _ two_event_core).
  - vm_compute. reflexivity.
  - repeat constructor; discriminate.
  - reflexivity.
  - reflexivity.
  - right. vm_compute. discriminate.
Defined.

Lemma check_task_event_stored env task_id s e :
  fst (check_task env task_id s) = Ok (Some e) ->
  Db.events (db (snd (check_task env task_id s)))
  = Db.events (db s) ++ [row_of_event e]
  /\ ChangeEvent.task_id e = task_id
  /\ ChangeEvent.screenshot_path e = None.
Proof.
  unfold_check. split_check; intros X; inversion X. repeat split.
Qed.

Lemma check_task_events_shape env task_id s :
  Db.events (db (snd (check_task env task_id s))) = Db.events (db s)
  \/ exists e,
       Db.events (db (snd (check_task env task_id s)))
       = Db.events (db s) ++ [row_of_event e].
Proof. unfold_check. split_check; eauto. Qed.

(** X8. What a check emits can be read back.  A check keeps every stored
    event row readable, and the event it returns is returned by
    [get_events] for its task right after, whenever the limit is a signed
    64-bit integer that is negative or not below the number of stored
    events. *)
Theorem emitted_event_can_be_read_back
    (env : CheckEnv) (task_id : string) (s : DataSpyCore) :
  Forall valid_event_row (Db.events (db s)) ->
  let r := check_task env task_id s in
  Forall valid_event_row (Db.events (db (snd r)))
  /\ (forall e limit,
         fst r = Ok (Some e) ->
         fits_int64 limit = true ->
         covers limit (List.length (Db.events (db (snd r)))) ->
         exists events,
           get_events (Some task_id) limit (snd r) = (Ok events, snd r)
           /\ In e events).
Proof.
  intros V. cbv zeta.
  assert (V' : Forall valid_event_row
                 (Db.events (db (snd (check_task env task_id s))))).
  { destruct (check_task_events_shape env task_id s) as [E | [e E]]; rewrite E.
    - exact V.
    - apply Forall_app. split; [exact V |].
      repeat constructor. apply row_of_event_valid. }
  split; [exact V' |].
  intros e limit R F C.
  destruct (check_task_event_stored env task_id s e R) as (E & T & P).
  destruct (get_events_finds (Some task_id) limit
              (snd (check_task env task_id s)) (row_of_event e))
    as (events & e' & G & I & R' & P'); auto.
  - rewrite E. apply in_or_app. right. now left.
  - unfold wanted. destruct (truthy (Some task_id)); [| reflexivity].
    cbn [row_of_event Db.e_task_id]. rewrite T. apply String.eqb_refl.
  - exists events. split; [exact G |].
    rewrite (row_of_event_stored e e' R' P') in I.
    assert (X : without_screenshot e = e).
    { unfold without_screenshot. destruct e. cbn in *. now subst. }
    now rewrite X in I.
Qed.

Lemma emitted_event_can_be_read_back_witness :
  let env := calm_env (Response 200 "world") 6000 in
  let r := check_task env "test_hn" (seen_core "hello") in
  exists events,
    get_events (Some "test_hn"%string) 50 (snd r) = (Ok events, snd r)
    /\ In (content_changed_event env "test_hn" (seen_task "hello") "world"
             (Sha256.hexdigest "world")) events.
Proof.
  cbv zeta.
  apply (proj2 (emitted_event_can_be_read_back
                  (calm_env (Response 200 "world") 6000) "test_hn"
                  (seen_core "hello") (Forall_nil _))).
  - vm_compute. reflexivity.
  - reflexivity.
  - right. vm_compute. discriminate.
Defined.

Lemma events_of_rows_raises rows s :
  Exists (fun row => ~ valid_event_row row) rows ->
  events_of_rows rows s = (Raise ValueError, s).
Proof.
  induction rows as [| row rows IH]; intros X; [inversion X |].
  cbn [events_of_rows]. unfold bind, event_of_row.
  destruct (ChangeType_of_value (Db.e_change_type row)) as [c |] eqn:C.
  - unfold ret at 1. rewrite IH; [reflexivity |].
    inversion X as [? ? H | ? ? H]; subst; [| exact H].
    exfalso. apply H. unfold valid_event_row. now rewrite C.
  - reflexivity.
Qed.

(** X9. One unreadable row among those selected makes [get_events] raise.
    When the limit is a signed 64-bit integer and a row that the call
    selects (of the task asked for, within the limit) carries a
    [change_type] text that names no [ChangeType], [get_events] raises
    [ValueError] and returns no event at all; the state is as before.
    Rows outside the selection do not matter. *)
Theorem get_events_raises_on_unreadable_row
    (task_id : option string) (limit : Z) (s : DataSpyCore) :
  fits_int64 limit = true ->
  Exists (fun row => ~ valid_event_row row)
         (select_events task_id limit (db s)) ->
  get_events task_id limit s = (Raise ValueError, s).
Proof.
  intros F X. unfold get_events. rewrite F. cbn [negb].
  unfold bind, gets. now apply events_of_rows_raises.
Qed.

Lemma get_events_raises_on_unreadable_row_witness :
  get_events None 50 garbled_core = (Raise ValueError, garbled_core)
  /\ exists events,
       get_events (Some "a"%string) 50 garbled_core = (Ok events, garbled_core).
Proof.
  split.
  - apply get_events_raises_on_unreadable_row; [reflexivity |].
    vm_compute. apply Exists_cons_hd. intros V. now apply V.
  - eexists. vm_compute. reflexivity.
Defined.

(** ** Checks and the loop together *)

Lemma monitor_task_when_due v task_id s task :
  dict_get task_id (tasks s) = Some task ->
  is_due (loop_now v) task = true ->
  exists event lines,
    fst (check_task (check_env v) task_id s) = Ok event
    /\ monitor_task v task_id s
       = (Ok tt,
          with_stdout
            (stdout (snd (check_task (check_env v) task_id s)) ++ lines)
            (snd (check_task (check_env v) task_id s))).
Proof.
  intros G. rewrite is_due_guard.
  unfold monitor_task, bind, gets, ret, print, modify. cbv beta. rewrite G.
  destruct (negb (MonitorTask.enabled task)); cbn [negb andb];
    [discriminate |].
  destruct (match MonitorTask.last_check task with
            | Some last => _
            | None => false
            end); cbn [negb]; [discriminate |].
  intros _.
  destruct (check_task_returns (check_env v) task_id s) as [event C].
  destruct (check_task (check_env v) task_id s) as [o s1].
  cbn [fst snd] in *. subst o.
  destruct event as [e |]; reduce_state.
  - exists (Some e),
      [Change_detected (MonitorTask.name task);
       Summary_line (ChangeEvent.diff_summary e)].
    now rewrite <- app_assoc.
  - exists None, [No_change (MonitorTask.name task)]. auto.
Qed.

Lemma monitor_task_when_not_due v task_id s task :
  dict_get task_id (tasks s) = Some task ->
  is_due (loop_now v) task = false ->
  monitor_task v task_id s = (Ok tt, s).
Proof.
  intros G. rewrite is_due_guard.
  unfold monitor_task, bind, gets, ret. cbv beta. rewrite G.
  destruct (negb (MonitorTask.enabled task)); cbn [negb andb];
    [reflexivity |].
  destruct (match MonitorTask.last_check task with
            | Some last => _
            | None => false
            end); cbn [negb]; [reflexivity | discriminate].
Qed.

Lemma is_due_later now now' task :
  is_due now task = true -> now <= now' -> is_due now' task = true.
Proof.
  unfold is_due. destruct (MonitorTask.enabled task); [| discriminate].
  destruct (MonitorTask.last_check task) as [last |]; [| reflexivity].
  cbn [andb]. rewrite !Z.leb_le. lia.
Qed.

Lemma failed_fetch_changes_nothing env task_id s :
  fetch_fails env ->
  let s' := snd (check_task env task_id s) in
  tasks s' = tasks s /\ db s' = db s /\ snapshot_files s' = snapshot_files s.
Proof.
  intros [F | (status & content & F & E)]; cbv zeta; unfold_check;
    rewrite F; split_check; auto; congruence.
Qed.

(** X10. A failed fetch is retried at the next wake.  When the loop reaches
    a due task and the fetch fails, one request is sent and the registry,
    the database and the snapshot files are as before: [last_check] is not
    advanced, so the task is due again at every later time, without waiting
    for its [check_interval]. *)
Theorem failed_fetch_is_retried
    (v : Visit) (task_id : string) (s : DataSpyCore) (task : MonitorTask) :
  dict_get task_id (tasks s) = Some task ->
  is_due (loop_now v) task = true ->
  fetch_fails (check_env v) ->
  let s' := snd (monitor_task v task_id s) in
  requests_sent s' = requests_sent s ++ [MonitorTask.url task]
  /\ tasks s' = tasks s
  /\ db s' = db s
  /\ snapshot_files s' = snapshot_files s
  /\ forall now',
       loop_now v <= now' ->
       exists task',
         dict_get task_id (tasks s') = Some task'
         /\ is_due now' task' = true.
Proof.
  intros G D F. cbv zeta.
  destruct (monitor_task_when_due v task_id s task G D)
    as (event & lines & _ & M).
  destruct (failed_fetch_changes_nothing (check_env v) task_id s F)
    as (T & B & P).
  assert (E : MonitorTask.enabled task = true).
  { unfold is_due in D. now destruct (MonitorTask.enabled task). }
  pose proof (check_task_sends_one_request (check_env v) task_id s task G E)
    as R.
  rewrite M. reduce_state. rewrite R, T, B, P.
  repeat split. intros now' L. exists task.
  split; [exact G | now apply (is_due_later (loop_now v))].
Qed.

Lemma failed_fetch_is_retried_witness :
  let v := mkVisit 5000000000 (calm_env NoResponse 5000) in
  let s' := snd (monitor_task v "test_hn" example_core) in
  exists task',
    dict_get "test_hn" (tasks s') = Some task'
    /\ is_due 5000000001 task' = true.
Proof.
  cbv zeta.
  apply (failed_fetch_is_retried
           (mkVisit 5000000000 (calm_env NoResponse 5000)) "test_hn"
           example_core example_task eq_refl eq_refl (or_introl eq_refl)).
  cbn. lia.
Defined.

Lemma check_task_advances_last_check env task_id s task status content :
  dict_get task_id (tasks s) = Some task ->
  MonitorTask.enabled task = true ->
  http_get env = Response status content ->
  is_http_error status = false ->
  content_changed task (Sha256.hexdigest content) = false
  \/ snapshot_goes_through env task_id s = true ->
  exists checked,
    dict_get task_id (tasks (snd (check_task env task_id s))) = Some checked
    /\ MonitorTask.last_check checked = Some (check_now env)
    /\ frame_fields task checked.
Proof.
  intros G E H S C.
  unfold_check. rewrite G, E, H. cbn [negb]. reduce_state. rewrite S.
  destruct C as [C | C].
  - rewrite C. split_check;
      eexists; rewrite ?dict_set_set, dict_get_set_same;
      repeat split; reflexivity.
  - destruct (content_changed task (Sha256.hexdigest content));
      split_check; contradict_writes;
      eexists; rewrite ?dict_set_set, dict_get_set_same;
      repeat split; reflexivity.
Qed.

(** X11. A check that went through defers the next one by the interval.
    After a check of an enabled task whose check interval is between 0 and
    2**34 seconds and whose fetch succeeds (and whose snapshot, if a
    change is detected, is saved), the loop skips the task, leaving the
    whole state as it is, as long as fewer than [check_interval] seconds
    have passed since the check, and checks it again (one more request to
    its url) once they have. *)
Theorem checked_task_waits_for_its_interval
    (env : CheckEnv) (task_id : string) (s : DataSpyCore)
    (task : MonitorTask) (status : Z) (content : string) (v : Visit) :
  dict_get task_id (tasks s) = Some task ->
  MonitorTask.enabled task = true ->
  interval_in_range task ->
  http_get env = Response status content ->
  is_http_error status = false ->
  content_changed task (Sha256.hexdigest content) = false
  \/ snapshot_goes_through env task_id s = true ->
  let s1 := snd (check_task env task_id s) in
  (loop_now v - check_now env < MonitorTask.check_interval task * 1000000 ->
   monitor_task v task_id s1 = (Ok tt, s1))
  /\ (MonitorTask.check_interval task * 1000000 <= loop_now v - check_now env ->
      requests_sent (snd (monitor_task v task_id s1))
      = requests_sent s1 ++ [MonitorTask.url task]).
Proof.
  intros G E _ H S C. cbv zeta.
  destruct (check_task_advances_last_check env task_id s task status content
              G E H S C) as (checked & G' & L & F).
  destruct F as (_ & _ & Fu & _ & _ & _ & Fi & _ & Fe & _).
  assert (D : is_due (loop_now v) checked
              = (MonitorTask.check_interval task * 1000000
                 <=? loop_now v - check_now env)).
  { unfold is_due. now rewrite L, Fe, E, Fi. }
  split; intros X.
  - apply (monitor_task_when_not_due v task_id _ checked G').
    rewrite D. apply Z.leb_gt. exact X.
  - assert (D' : is_due (loop_now v) checked = true)
      by (rewrite D; now apply Z.leb_le).
    destruct (monitor_task_when_due v task_id _ checked G' D')
      as (event & lines & _ & M).
    rewrite M. reduce_state.
    rewrite (check_task_sends_one_request (check_env v) task_id _ checked G')
      by congruence.
    now rewrite Fu.
Qed.

Lemma checked_task_waits_for_its_interval_witness :
  let s1 :=
    snd (check_task (calm_env (Response 200 "hello") 5000) "test_hn"
           example_core) in
  monitor_task (mkVisit 5299999999 (calm_env (Response 200 "world") 5299))
    "test_hn" s1
  = (Ok tt, s1).
Proof.
  cbv zeta.
  apply (proj1 (checked_task_waits_for_its_interval
                  (calm_env (Response 200 "hello") 5000) "test_hn"
                  example_core example_task 200 "hello"
                  (mkVisit 5299999999 (calm_env (Response 200 "world") 5299))
                  eq_refl eq_refl (proj2 example_interval_in_range)
                  eq_refl eq_refl
                  (or_introl eq_refl))).
  cbn. lia.
Defined.

(** *** Without a baseline nothing is ever reported *)

Lemma check_task_frame_none env task_id s :
  dict_get task_id (tasks s) = None ->
  check_task env task_id s = (Ok None, s).
Proof. intros G. unfold check_task, bind, gets, ret. now rewrite G. Qed.

Lemma check_task_without_baseline env task_id s :
  no_baseline s ->
  let r := check_task env task_id s in
  fst r = Ok None
  /\ Db.events (db (snd r)) = Db.events (db s)
  /\ Db.snapshots (db (snd r)) = Db.snapshots (db s)
  /\ snapshot_files (snd r) = snapshot_files s
  /\ no_baseline (snd r).
Proof.
  intros B. cbv zeta.
  assert (Core : fst (check_task env task_id s) = Ok None
                 /\ Db.events (db (snd (check_task env task_id s)))
                    = Db.events (db s)
                 /\ Db.snapshots (db (snd (check_task env task_id s)))
                    = Db.snapshots (db s)
                 /\ snapshot_files (snd (check_task env task_id s))
                    = snapshot_files s).
  { unfold_check. destruct (dict_get task_id (tasks s)) as [t |] eqn:G;
      [| auto].
    unfold content_changed. rewrite (B _ _ G). cbn [andb].
    split_check; auto. }
  destruct Core as (C1 & C2 & C3 & C4). repeat split; auto.
  intros k t G.
  destruct (String.eqb_spec k task_id) as [-> | N].
  - destruct (dict_get task_id (tasks s)) as [t0 |] eqn:G0.
    + destruct (unset_fingerprint_stays_unset env task_id s t0 G0 (B _ _ G0))
        as (_ & F & _).
      unfold field in F. rewrite G in F. cbn in F. inversion F as [X].
      rewrite X. exact (B _ _ G0).
    + rewrite (check_task_frame_none env task_id s G0) in G.
      cbn [snd] in G. congruence.
  - rewrite check_task_other_tasks in G by exact N. exact (B _ _ G).
Qed.

Lemma reports_nothing_trans s1 s2 s3 :
  reports_nothing s1 s2 -> reports_nothing s2 s3 -> reports_nothing s1 s3.
Proof.
  unfold reports_nothing. intros (A1 & A2 & A3 & _) (B1 & B2 & B3 & B4).
  repeat split; try congruence; assumption.
Qed.

Lemma monitor_task_without_baseline v task_id s :
  no_baseline s ->
  fst (monitor_task v task_id s) = Ok tt
  /\ reports_nothing s (snd (monitor_task v task_id s)).
Proof.
  intros B.
  destruct (check_task_without_baseline (check_env v) task_id s B)
    as (C0 & C1 & C2 & C3 & C4).
  unfold monitor_task, bind, gets, ret, print, modify. cbv beta.
  destruct (dict_get task_id (tasks s)) as [task |];
    [| split; [reflexivity | repeat split; auto]].
  destruct (negb (MonitorTask.enabled task));
    [split; [reflexivity | repeat split; auto] |].
  destruct (match MonitorTask.last_check task with
            | Some last => _
            | None => false
            end);
    [split; [reflexivity | repeat split; auto] |].
  destruct (check_task (check_env v) task_id s) as [o s1].
  cbn [fst snd] in *. subst o. reduce_state.
  split; [reflexivity | repeat split; auto].
Qed.

Lemma monitor_tasks_without_baseline visits ids : forall i s,
  no_baseline s ->
  fst (monitor_tasks visits i ids s) = Ok tt
  /\ reports_nothing s (snd (monitor_tasks visits i ids s)).
Proof.
  induction ids as [| k ids IH]; intros i s B; cbn [monitor_tasks].
  - split; [reflexivity | repeat split; auto].
  - unfold bind.
    destruct (monitor_task_without_baseline (visits i) k s B) as (R & Q).
    destruct (monitor_task (visits i) k s) as [o s1]. cbn [fst snd] in *.
    subst o.
    destruct (IH (S i) s1 (proj2 (proj2 (proj2 Q)))) as (R' & Q').
    split; [exact R' | eapply reports_nothing_trans; eauto].
Qed.

Lemma time_sleep_state refused interval s :
  snd (time_sleep refused interval s) = s.
Proof.
  unfold time_sleep, raise, ret.
  destruct (negb (fits_nanoseconds interval)); [reflexivity |].
  destruct (interval <? 0); [reflexivity |].
  now destruct refused.
Qed.

Lemma monitor_rounds_step n world sleep_refused interval k s :
  monitor_rounds (S n) world sleep_refused interval k s
  = match monitor_tasks (world k) 0 (dict_keys (tasks s)) s with
    | (Ok _, s1) =>
        match time_sleep (sleep_refused k) interval s1 with
        | (Ok _, s2) => monitor_rounds n world sleep_refused interval (S k) s2
        | (Raise e, s2) => (Raise e, s2)
        end
    | (Raise e, s1) => (Raise e, s1)
    end.
Proof. reflexivity. Qed.

Lemma monitor_rounds_without_baseline n :
  forall world sleep_refused interval k s,
  no_baseline s ->
  reports_nothing s (snd (monitor_rounds n world sleep_refused interval k s))
  /\ ((forall j, sleep_goes_through (sleep_refused j) interval = true) ->
      fst (monitor_rounds n world sleep_refused interval k s) = Ok tt).
Proof.
  induction n as [| n IH]; intros world sr interval k s B.
  - cbn [monitor_rounds]. split; [repeat split; auto | reflexivity].
  - rewrite monitor_rounds_step.
    destruct (monitor_tasks_without_baseline (world k) (dict_keys (tasks s))
                0%nat s B) as (R & Q).
    destruct (monitor_tasks (world k) 0 (dict_keys (tasks s)) s) as [o s1].
    cbn [fst snd] in *. subst o.
    pose proof (time_sleep_state (sr k) interval s1) as T.
    destruct (IH world sr interval (S k) s1 (proj2 (proj2 (proj2 Q))))
      as (Q' & R').
    split.
    + destruct (time_sleep (sr k) interval s1) as [[[] | e] s2];
        cbn [snd] in *; subst s2;
        [eapply reports_nothing_trans; eauto | exact Q].
    + intros Z. rewrite (time_sleep_returns _ _ s1 (Z k)). auto.
Qed.

(** X12. Without a baseline the monitor never reports a change.  When no
    registered task has a non-empty stored fingerprint (as after
    [add_task] of tasks that were never checked), however many rounds
    [run_monitor] runs, whatever the pages read and whether or not a sleep
    ends the loop with an exception, no event and no snapshot is stored,
    no snapshot file is written, and still no task has a fingerprint
    afterwards.  As long as every [time.sleep(interval)] returns (and
    standard output takes every line), the rounds run to the end. *)
Theorem without_baseline_nothing_is_reported
    (n : nat) (world : nat -> nat -> Visit) (sleep_refused : nat -> bool)
    (interval : Z) (s : DataSpyCore) :
  no_baseline s ->
  let r := run_monitor n world sleep_refused interval s in
  Db.events (db (snd r)) = Db.events (db s)
  /\ Db.snapshots (db (snd r)) = Db.snapshots (db s)
  /\ snapshot_files (snd r) = snapshot_files s
  /\ no_baseline (snd r)
  /\ ((forall j, sleep_goes_through (sleep_refused j) interval = true) ->
      fst r = Ok tt).
Proof.
  intros B. cbv zeta. unfold run_monitor, bind at 1, print, modify.
  set (s0 := with_stdout (stdout s ++ [Monitor_started interval]) s).
  assert (B0 : no_baseline s0) by exact B.
  destruct (monitor_rounds_without_baseline n world sleep_refused interval
              0%nat s0 B0) as ((Q1 & Q2 & Q3 & Q4) & R).
  auto.
Qed.

Lemma without_baseline_nothing_is_reported_witness :
  Db.events
    (db (snd (run_monitor 3 calm_world (fun _ => false) 60 two_task_core)))
  = []
  /\ Db.events
       (db (snd (run_monitor 3 calm_world (fun _ => false) (-1)
                   two_task_core)))
     = [].
Proof.
  assert (B : no_baseline two_task_core).
  { intros k t. cbn.
    repeat match goal with
           | |- context [(k =? ?x)%string] => destruct (k =? x)%string
           end;
      intros X; inversion X; reflexivity. }
  split.
  - apply (without_baseline_nothing_is_reported 3 calm_world (fun _ => false)
             60 two_task_core B).
  - apply (without_baseline_nothing_is_reported 3 calm_world (fun _ => false)
             (-1) two_task_core B).
Defined.

(** ** One request per check, one line per failure *)

(** X13. A check sends exactly one request and never retries.  For a
    registered, enabled task [check_task] sends one request, to the task's
    url, whatever comes back; it prints nothing when the [try] body
    completes, and exactly one line, naming the task and the exception,
    when the body raises, in which case it returns [None]. *)
Theorem check_task_sends_one_request_and_reports
    (env : CheckEnv) (task_id : string) (s : DataSpyCore) (task : MonitorTask) :
  dict_get task_id (tasks s) = Some task ->
  MonitorTask.enabled task = true ->
  let r := check_task env task_id s in
  requests_sent (snd r) = requests_sent s ++ [MonitorTask.url task]
  /\ ((exists s1 event,
          check_task_body env task_id task s = (Ok event, s1)
          /\ r = (Ok event, s1)
          /\ stdout s1 = stdout s)
      \/ (exists s1 e,
             check_task_body env task_id task s = (Raise e, s1)
             /\ fst r = Ok None
             /\ stdout (snd r) = stdout s ++ [Error_checking_task task_id e])).
Proof.
  intros G E. cbv zeta.
  split; [now apply check_task_sends_one_request |].
  unfold_check. rewrite G, E. cbn [negb].
  split_check;
    first [ left; do 2 eexists; repeat split; reflexivity
          | right; do 2 eexists; repeat split; reflexivity ].
Qed.

Lemma check_task_sends_one_request_and_reports_witness :
  requests_sent
    (snd (check_task (calm_env (Response 503 "busy") 5000) "test_hn"
            example_core))
  = requests_sent example_core ++ ["https://news.ycombinator.com"%string].
Proof.
  apply (check_task_sends_one_request_and_reports
           (calm_env (Response 503 "busy") 5000) "test_hn" example_core
           example_task eq_refl eq_refl).
Defined.

(** ** The shape of what an event shows *)

Lemma hex_digit_plain x : is_continuation (Sha256.hex_digit x) = false.
Proof.
  unfold Sha256.hex_digit.
  assert (B : 0 <= Z.land x 15 < 16).
  { change 15 with (Z.ones 4). rewrite Z.land_ones by lia.
    apply Z.mod_pos_bound. lia. }
  set (d := Z.land x 15) in *.
  assert (C : d = 0 \/ d = 1 \/ d = 2 \/ d = 3 \/ d = 4 \/ d = 5 \/ d = 6
              \/ d = 7 \/ d = 8 \/ d = 9 \/ d = 10 \/ d = 11 \/ d = 12
              \/ d = 13 \/ d = 14 \/ d = 15) by lia.
  repeat (destruct C as [-> | C]; [reflexivity |]). subst d. now rewrite C.
Qed.

Lemma py_prefix_plain n c s :
  is_continuation c = false ->
  py_prefix (S n) (String c s) = String c (py_prefix n s).
Proof. intros P. cbn [py_prefix]. now rewrite P. Qed.

Lemma py_prefix_stop c s :
  is_continuation c = false -> py_prefix 0 (String c s) = EmptyString.
Proof. intros P. cbn [py_prefix]. now rewrite P. Qed.

Lemma hexdigest_length content :
  String.length (Sha256.hexdigest content) = 64%nat.
Proof.
  unfold Sha256.hexdigest, Sha256.hex_of_words.
  destruct (Sha256.digest _) as [[[[[[[a b] c] d] e] f] g] h].
  reflexivity.
Qed.

Lemma truncated_hexdigest content :
  exists head rest,
    truncated (Sha256.hexdigest content) = (head ++ "...")%string
    /\ Sha256.hexdigest content = (head ++ rest)%string
    /\ String.length head = 16%nat.
Proof.
  unfold truncated, Sha256.hexdigest, Sha256.hex_of_words.
  destruct (Sha256.digest _) as [[[[[[[a b] c] d] e] f] g] h].
  unfold Sha256.hex8.
  do 16 (rewrite py_prefix_plain by apply hex_digit_plain).
  rewrite py_prefix_stop by apply hex_digit_plain.
  do 2 eexists. split; [reflexivity |]. split; reflexivity.
Qed.

(** X14. An event shows fingerprints cut to 16 characters.  The fingerprint
    of a page is 64 characters long.  In every event [check_task] returns,
    [new_value] is the first 16 characters of the fetched page's
    fingerprint followed by three dots, 19 characters in all, [old_value]
    is the stored fingerprint cut the same way, and the event carries the
    task id it was called with and the id built from the clock's second
    and the task id. *)
Theorem emitted_event_shows_cut_fingerprints
    (env : CheckEnv) (task_id : string) (s : DataSpyCore) (e : ChangeEvent) :
  fst (check_task env task_id s) = Ok (Some e) ->
  ChangeEvent.id e = event_id env task_id
  /\ ChangeEvent.task_id e = task_id
  /\ exists task status content head rest,
       dict_get task_id (tasks s) = Some task
       /\ http_get env = Response status content
       /\ ChangeEvent.old_value e
          = option_map truncated (MonitorTask.last_content_hash task)
       /\ ChangeEvent.new_value e = Some (head ++ "...")%string
       /\ Sha256.hexdigest content = (head ++ rest)%string
       /\ String.length head = 16%nat
       /\ String.length (Sha256.hexdigest content) = 64%nat
       /\ String.length (head ++ "...") = 19%nat.
Proof.
  unfold_check. split_check; intros X; inversion X.
  cbn [ChangeEvent.id ChangeEvent.task_id ChangeEvent.old_value
       ChangeEvent.new_value content_changed_event].
  split; [reflexivity |]. split; [reflexivity |].
  destruct (truncated_hexdigest text) as (head & rest & T & H & L).
  exists t, status_code, text, head, rest. rewrite T.
  repeat split; auto using hexdigest_length.
  clear - L. do 17 (destruct head as [| ? head]; try discriminate).
  reflexivity.
Qed.

Lemma emitted_event_shows_cut_fingerprints_witness :
  ChangeEvent.task_id
    (content_changed_event (calm_env (Response 200 "world") 6000) "test_hn"
       (seen_task "hello") "world" (Sha256.hexdigest "world"))
  = "test_hn"%string.
Proof.
  apply (emitted_event_shows_cut_fingerprints
           (calm_env (Response 200 "world") 6000) "test_hn"
           (seen_core "hello")).
  vm_compute. reflexivity.
Defined.
